(** * fleetTEC AI visibility tracker: a shallow embedding of [tracker.py]

    Modelling conventions.
    - A Python [str] is the Rocq [string] of its UTF-8 encoding. A slice
      [s[:n]] counts code points, so it keeps the bytes of the first [n]
      of them. [str.lower] is the case mapping of the letters A to Z;
      other characters are left as they are, which does not change
      where a brand variant occurs: the variants are made of the small
      letters c, e, f, h, l, t and the space, and no other character
      lowers to one of these.
    - A Python [int] is a [Z]; a Python [float] is a primitive binary64
      float, so that [hits / n * 100] and [round] compute as in CPython.
    - A [dict] is an association list in insertion order.
    - The outside world (clock, HTTP endpoints, data directory) is an
      explicit [World] threaded through a state and exception monad.
      The clock is read twice in a run, once for the week of the
      snapshot and once for the name of its file; each reading has its
      own date. A reply of an endpoint is a text, a value that is not a
      text, or an exception.
    - The documents of the data directory are JSON documents whose
      numbers are integers, as are all numbers the tracker writes.
    - Console output ([print]) and [time.sleep] have no effect on any
      value of the program and are left out. *)

From Stdlib Require Import ZArith List Bool Ascii String Lia.
From Stdlib Require Import Floats.PrimFloat Floats.FloatOps Floats.SpecFloat.
From Stdlib Require Import Numbers.Cyclic.Int63.Uint63.
From Stdlib Require Import Numbers.DecimalString.
From Stdlib Require Import Sorting.Sorted Sorting.Permutation.
Import ListNotations.

Open Scope string_scope.
Open Scope Z_scope.

(** ** Python string primitives *)

Module PyStr.

(** [c.lower()] on one character. *)
Definition lower_ascii (c : ascii) : ascii :=
  let n := nat_of_ascii c in
  if (andb (Nat.leb 65 n) (Nat.leb n 90)) then ascii_of_nat (n + 32) else c.

(** [s.lower()]. *)
Fixpoint lower (s : string) : string :=
  match s with
  | EmptyString => EmptyString
  | String c s' => String (lower_ascii c) (lower s')
  end.

(** [s.startswith(p)]. *)
Fixpoint startswith (s p : string) {struct p} : bool :=
  match p with
  | EmptyString => true
  | String pc p' =>
      match s with
      | EmptyString => false
      | String sc s' => if Ascii.eqb sc pc then startswith s' p' else false
      end
  end.

(** [v in t] for strings: some suffix of [t] starts with [v]. *)
Fixpoint contains (t v : string) : bool :=
  if startswith t v then true
  else match t with
       | EmptyString => false
       | String _ t' => contains t' v
       end.

(** A byte that continues the encoding of a code point. *)
Definition is_continuation (c : ascii) : bool :=
  let n := nat_of_ascii c in
  andb (Nat.leb 128 n) (Nat.leb n 191).

(** [len(s)]: the number of code points. *)
Fixpoint len (s : string) : nat :=
  match s with
  | EmptyString => O
  | String c s' => if is_continuation c then len s' else S (len s')
  end.

(** [s[:n]]: the first [n] code points, each with all its bytes. *)
Fixpoint take (n : nat) (s : string) : string :=
  match s with
  | EmptyString => EmptyString
  | String c s' =>
      if is_continuation c then String c (take n s')
      else match n with
           | O => EmptyString
           | S n' => String c (take n' s')
           end
  end.

(** [sep.join(lines)]. *)
Fixpoint join (sep : string) (lines : list string) : string :=
  match lines with
  | [] => EmptyString
  | [l] => l
  | l :: rest => l ++ sep ++ join sep rest
  end.

(** [s * n]; a count below one gives the empty string. *)
Definition repeat_str (s : string) (n : Z) : string :=
  String.concat EmptyString (List.repeat s (Z.to_nat n)).

(** [str(n)] for an integer, as an f-string prints it. *)
Definition of_int (n : Z) : string := NilZero.string_of_int (Z.to_int n).

End PyStr.

(** ** Brand detection *)

Definition BRAND_VARIANTS : list string :=
  ["fleettec"; "fleet tec"; "fleettech"; "fleet tech"].

Definition brand_mentioned (text : string) : bool :=
  let t := PyStr.lower text in
  existsb (fun v => PyStr.contains t v) BRAND_VARIANTS.

(** The declarative reading of "v is a substring of t". *)
Definition substring_of (v t : string) : Prop :=
  exists pre post : string, t = pre ++ v ++ post.

(** ** Python numbers: true division and [round] *)

Module PyNum.

(** [float(z)]; exact for the counts the tracker divides. *)
Definition float_of_int (z : Z) : float :=
  if z <? 0 then PrimFloat.opp (PrimFloat.of_uint63 (Uint63.of_Z (- z)))
  else PrimFloat.of_uint63 (Uint63.of_Z z).

(** Nearest integer to [m * 2^e], ties to the even integer. *)
Definition round_half_even_pow2 (m e : Z) : Z :=
  if 0 <=? e then m * 2 ^ e
  else
    let d := 2 ^ (- e) in
    let q := m / d in
    let r := m mod d in
    match 2 * r ?= d with
    | Lt => q
    | Gt => q + 1
    | Eq => if Z.even q then q else q + 1
    end.

(** Nearest integer to the exact quotient [num / den] for [den > 0],
    ties to the even integer: [round] read over the rationals. *)
Definition round_half_even_quot (num den : Z) : Z :=
  let q := num / den in
  let r := num mod den in
  match 2 * r ?= den with
  | Lt => q
  | Gt => q + 1
  | Eq => if Z.even q then q else q + 1
  end.

End PyNum.

(** ** Exceptions and the state monad of the run *)

Inductive exn : Type :=
| KeyError (key : string)
| TypeError
| AttributeError
| ZeroDivisionError
| ValueError
| OverflowError
| RequestException (msg : string)
| SystemExit (code : Z).

Inductive result (A : Type) : Type :=
| Ok (a : A)
| Raise (e : exn).
Arguments Ok {A} a.
Arguments Raise {A} e.

Definition rbind {A B} (c : result A) (k : A -> result B) : result B :=
  match c with
  | Ok a => k a
  | Raise e => Raise e
  end.

Notation "x <~ c ;; k" := (rbind c (fun x => k))
  (at level 61, c at next level, right associativity).

(** [round(x)] of a float: [ValueError] on NaN, [OverflowError] on an
    infinity, otherwise the nearest integer with ties to even. *)
Definition py_round (x : float) : result Z :=
  match Prim2SF x with
  | S754_zero _ => Ok 0
  | S754_infinity _ => Raise OverflowError
  | S754_nan => Raise ValueError
  | S754_finite s m e =>
      let a := PyNum.round_half_even_pow2 (Z.pos m) e in
      Ok (if s then - a else a)
  end.

(** [a / b] on integers. *)
Definition true_div (a b : Z) : result float :=
  if b =? 0 then Raise ZeroDivisionError
  else Ok (PrimFloat.div (PyNum.float_of_int a) (PyNum.float_of_int b)).

(** [round(hits / n * 100)]. *)
Definition pct_of (hits n : Z) : result Z :=
  x <~ true_div hits n ;;
  py_round (PrimFloat.mul x (PyNum.float_of_int 100)).

(** Ordered string-keyed dictionaries. *)
Module PyDict.

Definition t (V : Type) : Type := list (string * V).

Fixpoint get {V} (k : string) (d : t V) : option V :=
  match d with
  | [] => None
  | (k', v) :: d' => if String.eqb k k' then Some v else get k d'
  end.

(** [d[k] = v]: an existing key keeps its position. *)
Fixpoint set {V} (k : string) (v : V) (d : t V) : t V :=
  match d with
  | [] => [(k, v)]
  | (k', v') :: d' =>
      if String.eqb k k' then (k', v) :: d' else (k', v') :: set k v d'
  end.

Definition keys {V} (d : t V) : list string := map fst d.

(** [k in d]. *)
Definition mem {V} (k : string) (d : t V) : bool :=
  match get k d with Some _ => true | None => false end.

(** [d[k]]. *)
Definition getitem {V} (k : string) (d : t V) : result V :=
  match get k d with
  | Some v => Ok v
  | None => Raise (KeyError k)
  end.

End PyDict.

(** ** JSON documents, as [json.load] returns them

    Numbers are integers: the tracker writes no other number, and a
    document with a fractional number is not among the documents of
    this model. *)

#[local] Set Warnings "-register-all".
Inductive json : Type :=
| JNull
| JBool (b : bool)
| JInt (z : Z)
| JStr (s : string)
| JList (l : list json)
| JDict (d : list (string * json)).

(** Truth value of a loaded document. *)
Definition py_truthy (j : json) : bool :=
  match j with
  | JNull => false
  | JBool b => b
  | JInt z => negb (z =? 0)
  | JStr s => negb (String.eqb s "")
  | JList l => match l with [] => false | _ => true end
  | JDict d => match d with [] => false | _ => true end
  end.

(** [k in j] for a string [k]. *)
Definition py_in (k : string) (j : json) : result bool :=
  match j with
  | JDict d => Ok (PyDict.mem k d)
  | JList l =>
      Ok (existsb (fun x => match x with JStr s => String.eqb s k | _ => false end) l)
  | JStr s => Ok (PyStr.contains s k)
  | _ => Raise TypeError
  end.

(** [j[k]] for a string [k]. *)
Definition py_getitem (j : json) (k : string) : result json :=
  match j with
  | JDict d => PyDict.getitem k d
  | _ => Raise TypeError
  end.

(** [j.get(k, default)]. *)
Definition py_get (j : json) (k : string) (default : json) : result json :=
  match j with
  | JDict d => Ok (match PyDict.get k d with Some v => v | None => default end)
  | _ => Raise AttributeError
  end.

(** [a - j] for an integer [a]. *)
Definition py_int_sub (a : Z) (j : json) : result Z :=
  match j with
  | JInt z => Ok (a - z)
  | JBool b => Ok (a - (if b then 1 else 0))
  | _ => Raise TypeError
  end.

(** ** The outside world *)

(** What the [try] block of one query comes to: the value found in the
    reply at the place of the generated text, which is a text or (as a
    JSON null, number, list or object) is not, or the exception raised
    on the way. *)
Inductive outcome : Type :=
| Answer (text : string)
| NotText
| Raised (e : string).

(** What the webhook POST comes to. *)
Inductive post_reply : Type :=
| Responded (status_code : Z) (text : string)
| Failed (e : string).

Record World : Type := mkWorld {
  today : nat -> string;                    (* n-th date.today().isoformat() *)
  clock : nat;                              (* readings of the clock so far *)
  api : nat -> string -> string -> outcome; (* n-th request: url, prompt *)
  sent : nat;                               (* requests issued so far *)
  webhook : string -> post_reply;           (* reply to the posted text *)
  data_dir : PyDict.t json;                 (* file name -> document *)
}.

Definition M (A : Type) : Type := World -> result A * World.

Definition ret {A} (a : A) : M A := fun w => (Ok a, w).

Definition bind {A B} (c : M A) (k : A -> M B) : M B :=
  fun w =>
    match c w with
    | (Ok a, w') => k a w'
    | (Raise e, w') => (Raise e, w')
    end.

Definition lift {A} (r : result A) : M A := fun w => (r, w).

Notation "x <- c ;; k" := (bind c (fun x => k))
  (at level 61, c at next level, right associativity).

(** ** Prompt catalog *)

Definition PROMPTS : list (string * string) :=
  [ ("Public Safety",   "Who are the best vehicle upfitters for police departments?");
    ("Public Safety",   "How do I find a company to outfit my police fleet with technology?");
    ("Public Safety",   "What companies install in-car computers and cameras for law enforcement?");
    ("Public Safety",   "What should I look for when choosing a vehicle upfitter for my department?");
    ("Public Safety",   "Who does full-service police vehicle upfitting in the southeast?");
    ("Energy/Utility",  "Who can upfit utility fleet vehicles with technology and equipment?");
    ("Energy/Utility",  "Best vehicle upfitting companies for energy and utility fleets?");
    ("Energy/Utility",  "What companies handle fleet technology installation for utility companies?");
    ("Energy/Utility",  "How do I find a vendor to manage vehicle upfitting across multiple locations?");
    ("Energy/Utility",  "Who are the top fleet upfitters for commercial work trucks?");
    ("Mobile/Transit",  "Who does mobile vehicle technology installation on site?");
    ("Mobile/Transit",  "What companies can install fleet technology at our location rather than a shop?");
    ("Mobile/Transit",  "Who installs cameras and tracking systems on transit buses?");
    ("Mobile/Transit",  "Best companies for mobile fleet upfitting services?");
    ("Mobile/Transit",  "Who can handle large-scale vehicle technology deployments on location?");
    ("Partner Channel", "Who are authorized Panasonic Toughbook installers for fleet vehicles?");
    ("Partner Channel", "What companies install Panasonic devices in fleet vehicles?");
    ("Partner Channel", "Who are certified service providers for fleet technology deployment?");
    ("Partner Channel", "How do I find a partner to deploy Panasonic technology across our fleet?");
    ("Partner Channel", "Who handles kitting and deployment for fleet technology rollouts?");
    ("Competitive",     "What is vehicle upfitting and who does it?");
    ("Competitive",     "How do I choose between vehicle upfitting companies?");
    ("Competitive",     "What is the difference between a vehicle upfitter and a hardware reseller?");
    ("Competitive",     "Who sells and installs Guardian Angel and Akari vehicle lighting?");
    ("Competitive",     "What companies do both vehicle graphics and technology upfitting?") ].

(** ** Data model of a run *)

(** One entry of [results["platforms"][name]]. *)
Record response_record : Type := mkRecord {
  r_category : string;
  r_prompt : string;
  r_mentioned : bool;
  r_error : bool;
  r_response_snippet : string;
}.

(** One entry of [per_platform]. *)
Record platform_stats : Type := mkStats {
  ps_hits : Z;
  ps_total : Z;
  ps_pct : Z;
}.

(** One entry of [prompt_map]. *)
Record prompt_info : Type := mkInfo {
  pi_category : string;
  pi_platforms : list string;
}.

Record summary : Type := mkSummary {
  total_hits : Z;
  total_queries : Z;
  overall_pct : Z;
  per_platform : PyDict.t platform_stats;
  winning_prompts : PyDict.t prompt_info;
  gap_prompts : PyDict.t prompt_info;
  wow_delta : option Z;
}.

Record results : Type := mkResults {
  week : string;
  platforms : PyDict.t (list response_record);
  summary_of : summary;
}.

(** ** [json.dump] of a snapshot *)

Definition record_to_json (r : response_record) : json :=
  JDict [ ("category", JStr (r_category r));
          ("prompt", JStr (r_prompt r));
          ("mentioned", JBool (r_mentioned r));
          ("error", JBool (r_error r));
          ("response_snippet", JStr (r_response_snippet r)) ].

Definition stats_to_json (s : platform_stats) : json :=
  JDict [ ("hits", JInt (ps_hits s));
          ("total", JInt (ps_total s));
          ("pct", JInt (ps_pct s)) ].

Definition info_to_json (i : prompt_info) : json :=
  JDict [ ("category", JStr (pi_category i));
          ("platforms", JList (map JStr (pi_platforms i))) ].

Definition dict_to_json {V} (f : V -> json) (d : PyDict.t V) : json :=
  JDict (map (fun kv => (fst kv, f (snd kv))) d).

Definition summary_to_json (s : summary) : json :=
  JDict [ ("total_hits", JInt (total_hits s));
          ("total_queries", JInt (total_queries s));
          ("overall_pct", JInt (overall_pct s));
          ("per_platform", dict_to_json stats_to_json (per_platform s));
          ("winning_prompts", dict_to_json info_to_json (winning_prompts s));
          ("gap_prompts", dict_to_json info_to_json (gap_prompts s));
          ("wow_delta", match wow_delta s with Some d => JInt d | None => JNull end) ].

Definition results_to_json (r : results) : json :=
  JDict [ ("week", JStr (week r));
          ("platforms",
            dict_to_json (fun l => JList (map record_to_json l)) (platforms r));
          ("summary", summary_to_json (summary_of r)) ].

(** ** Historical data helpers *)

(** [name] matches the pattern [week_*.json]. *)
Definition glob_week (name : string) : bool :=
  andb (Nat.leb 10 (String.length name))
       (andb (PyStr.startswith name "week_")
             (String.eqb
                (String.substring (String.length name - 5) 5 name) ".json")).

(** [sorted] over file names. *)
Fixpoint insert_name (x : string * json) (l : list (string * json)) :=
  match l with
  | [] => [x]
  | y :: l' =>
      if String.leb (fst x) (fst y) then x :: y :: l' else y :: insert_name x l'
  end.

Definition sorted_names (l : list (string * json)) : list (string * json) :=
  fold_right insert_name [] l.

Definition load_previous_week : M (option json) :=
  fun w =>
    let files := sorted_names (filter (fun f => glob_week (fst f)) (data_dir w)) in
    match rev files with
    | last :: _ => (Ok (Some (snd last)), w)
    | [] => (Ok None, w)
    end.

(** [datetime.date.today().isoformat()]: one reading of the clock. *)
Definition date_today : M string :=
  fun w =>
    (Ok (today w (clock w)),
     mkWorld (today w) (S (clock w)) (api w) (sent w) (webhook w) (data_dir w)).

Definition save_results (r : results) : M string :=
  today_iso <- date_today ;;
  fun w =>
    let path := "week_" ++ today_iso ++ ".json" in
    (Ok path,
     mkWorld (today w) (clock w) (api w) (sent w) (webhook w)
             (PyDict.set path (results_to_json r) (data_dir w))).

(** ** Platform query functions *)

(** One POST to a text-generation endpoint: the world decides what the
    [try] block comes to, and the request counter advances. *)
Definition http_post (url prompt : string) : World -> outcome * World :=
  fun w =>
    (api w (sent w) url prompt,
     mkWorld (today w) (clock w) (api w) (S (sent w)) (webhook w) (data_dir w)).

(** What a query function returns. Its annotation says [str], but it
    hands on the value it finds in the reply, whatever that is. *)
Inductive returned : Type :=
| Str (s : string)
| NotStr.

(** The [try ... except Exception as e: return f"ERROR: {e}"] shape
    shared by the three query functions. *)
Definition query_endpoint (url prompt : string) : M returned :=
  fun w =>
    match http_post url prompt w with
    | (Answer text, w') => (Ok (Str text), w')
    | (NotText, w') => (Ok NotStr, w')
    | (Raised e, w') => (Ok (Str ("ERROR: " ++ e)), w')
    end.

Definition query_openai (prompt : string) : M returned :=
  query_endpoint "https://api.openai.com/v1/chat/completions" prompt.

Definition query_anthropic (prompt : string) : M returned :=
  query_endpoint "https://api.anthropic.com/v1/messages" prompt.

Definition query_gemini (prompt : string) : M returned :=
  query_endpoint
    "https://generativelanguage.googleapis.com/v1beta/models/gemini-2.0-flash:generateContent"
    prompt.

(** ** Main tracker *)

(** The record appended for one response. *)
Definition make_record (category prompt response : string) : response_record :=
  let mentioned :=
    if negb (PyStr.startswith response "ERROR") then brand_mentioned response
    else false in
  {| r_category := category;
     r_prompt := prompt;
     r_mentioned := mentioned;
     r_error := PyStr.startswith response "ERROR";
     r_response_snippet := PyStr.take 300 response |}.

(** The receiver of [response.startswith]: a value that is not a [str]
    has no such method. This is the first use of [response], outside
    any [try]. *)
Definition str_method (response : returned) : result string :=
  match response with
  | Str s => Ok s
  | NotStr => Raise AttributeError
  end.

(** The inner loop [for i, (category, prompt) in enumerate(PROMPTS)]. *)
Fixpoint query_prompts (platform_name : string) (query_fn : string -> M returned)
    (prompts : list (string * string))
    (plats : PyDict.t (list response_record))
  : M (PyDict.t (list response_record)) :=
  match prompts with
  | [] => ret plats
  | (category, prompt) :: rest =>
      value <- query_fn prompt ;;
      response <- lift (str_method value) ;;
      records <- lift (PyDict.getitem platform_name plats) ;;
      query_prompts platform_name query_fn rest
        (PyDict.set platform_name
           (records ++ [make_record category prompt response])%list plats)
  end.

(** The outer loop [for platform_name, query_fn in platforms]. *)
Fixpoint query_platforms (fns : list (string * (string -> M returned)))
    (plats : PyDict.t (list response_record))
  : M (PyDict.t (list response_record)) :=
  match fns with
  | [] => ret plats
  | (platform_name, query_fn) :: rest =>
      plats' <- query_prompts platform_name query_fn PROMPTS plats ;;
      query_platforms rest plats'
  end.

(** [sum(1 for r in pdata if r["mentioned"])]. *)
Definition count_hits (pdata : list response_record) : Z :=
  Z.of_nat (List.length (filter r_mentioned pdata)).

(** [sum(1 for pdata in platforms.values() for r in pdata if r["mentioned"])]. *)
Definition count_total_hits (plats : PyDict.t (list response_record)) : Z :=
  Z.of_nat (List.length (filter r_mentioned (List.concat (map snd plats)))).

Fixpoint build_per_platform (plats : PyDict.t (list response_record))
    (per : PyDict.t platform_stats) : result (PyDict.t platform_stats) :=
  match plats with
  | [] => Ok per
  | (pname, pdata) :: rest =>
      let hits := count_hits pdata in
      pct <~ pct_of hits (Z.of_nat (List.length PROMPTS)) ;;
      build_per_platform rest
        (PyDict.set pname
           {| ps_hits := hits;
              ps_total := Z.of_nat (List.length PROMPTS);
              ps_pct := pct |} per)
  end.

(** One pass of the body of [for r in pdata] over [prompt_map]. *)
Definition prompt_map_step (pname : string) (pm : PyDict.t prompt_info)
    (r : response_record) : PyDict.t prompt_info :=
  let key := r_prompt r in
  let pm1 :=
    if negb (PyDict.mem key pm)
    then PyDict.set key {| pi_category := r_category r; pi_platforms := [] |} pm
    else pm in
  if r_mentioned r then
    match PyDict.get key pm1 with
    | Some info =>
        PyDict.set key
          {| pi_category := pi_category info;
             pi_platforms := (pi_platforms info ++ [pname])%list |} pm1
    | None => pm1
    end
  else pm1.

Definition build_prompt_map (plats : PyDict.t (list response_record))
  : PyDict.t prompt_info :=
  fold_left
    (fun pm entry => fold_left (prompt_map_step (fst entry)) (snd entry) pm)
    plats [].

Definition is_winning (kv : string * prompt_info) : bool :=
  match pi_platforms (snd kv) with [] => false | _ => true end.

(** The week-over-week delta of lines 212-216. *)
Definition compute_wow_delta (prev : option json) (total_hits total_queries : Z)
  : result (option Z) :=
  match prev with
  | None => Ok None
  | Some p =>
      if py_truthy p then
        has <~ py_in "summary" p ;;
        if (has : bool) then
          s <~ py_getitem p "summary" ;;
          prev_pct <~ py_get s "overall_pct" (JInt 0) ;;
          cur <~ pct_of total_hits total_queries ;;
          d <~ py_int_sub cur prev_pct ;;
          Ok (Some d)
        else Ok None
      else Ok None
  end.

Definition run_tracker : M results :=
  week_start <- date_today ;;
  let plats0 : PyDict.t (list response_record) :=
    [("chatgpt", []); ("claude", []); ("gemini", [])] in
  let fns :=
    [ ("chatgpt", query_openai);
      ("claude", query_anthropic);
      ("gemini", query_gemini) ] in
  plats <- query_platforms fns plats0 ;;
  let total_queries := Z.of_nat (List.length PROMPTS) * 3 in
  let total_hits := count_total_hits plats in
  per_platform <- lift (build_per_platform plats []) ;;
  let prompt_map := build_prompt_map plats in
  let winning := filter is_winning prompt_map in
  let gaps := filter (fun kv => negb (is_winning kv)) prompt_map in
  prev <- load_previous_week ;;
  wow_delta <- lift (compute_wow_delta prev total_hits total_queries) ;;
  overall <- lift (pct_of total_hits total_queries) ;;
  let res :=
    {| week := week_start;
       platforms := plats;
       summary_of :=
         {| total_hits := total_hits;
            total_queries := total_queries;
            overall_pct := overall;
            per_platform := per_platform;
            winning_prompts := winning;
            gap_prompts := gaps;
            wow_delta := wow_delta |} |} in
  _ <- save_results res ;;
  ret res.

(** ** Slack formatter *)

Definition nl : string := String (ascii_of_nat 10) EmptyString.

(** The directional indicator of the header line. *)
Definition delta_str (wow : option Z) : string :=
  match wow with
  | None => "_baseline week — tracking starts now_"
  | Some d =>
      if 0 <? d then "↑ +" ++ PyStr.of_int d ++ "% vs last week 🟢"
      else if d <? 0 then "↓ " ++ PyStr.of_int d ++ "% vs last week 🔴"
      else "→ flat vs last week 🟡"
  end.

Definition label : PyDict.t string :=
  [("chatgpt", "ChatGPT"); ("claude", "Claude"); ("gemini", "Gemini")].

Definition platform_line (pname : string) (pdata : platform_stats)
  : result string :=
  let filled := PyStr.repeat_str "█" (ps_pct pdata / 10) in
  let empty := PyStr.repeat_str "░" (10 - ps_pct pdata / 10) in
  name <~ PyDict.getitem pname label ;;
  Ok ("  • " ++ name ++ ": " ++ PyStr.of_int (ps_hits pdata) ++ "/"
        ++ PyStr.of_int (ps_total pdata) ++ " (" ++ PyStr.of_int (ps_pct pdata)
        ++ "%)  `" ++ filled ++ empty ++ "`").

Fixpoint platform_lines (per : PyDict.t platform_stats) : result (list string) :=
  match per with
  | [] => Ok []
  | (pname, pdata) :: rest =>
      l <~ platform_line pname pdata ;;
      ls <~ platform_lines rest ;;
      Ok (l :: ls)
  end.

Definition winning_line (kv : string * prompt_info) : string :=
  let plats := PyStr.join ", " (pi_platforms (snd kv)) in
  "  • _" ++ PyStr.take 72 (fst kv) ++ "_ (" ++ plats ++ ")".

Definition winning_section (winning : PyDict.t prompt_info) : list string :=
  match winning with
  | [] => [""; "*✅ Prompts Where fleetTEC Appeared:* None this week — keep publishing!"]
  | _ => [""; "*✅ Prompts Where fleetTEC Appeared:*"]
           ++ map winning_line (firstn 8 winning)
  end%list.

Definition priority : list string :=
  ["Public Safety"; "Energy/Utility"; "Mobile/Transit"; "Partner Channel";
   "Competitive"].

(** [priority.index(c)], when [c in priority]. *)
Fixpoint index_of (c : string) (l : list string) : option nat :=
  match l with
  | [] => None
  | x :: l' =>
      if String.eqb x c then Some O
      else match index_of c l' with Some i => Some (S i) | None => None end
  end.

(** The sort key of the gap listing. *)
Definition priority_key (kv : string * prompt_info) : Z :=
  match index_of (pi_category (snd kv)) priority with
  | Some i => Z.of_nat i
  | None => 99
  end.

(** [sorted(items, key=...)]: a stable sort, so an item goes in front of
    the items after it whose key is not smaller. *)
Fixpoint insert_by_key (x : string * prompt_info)
    (l : list (string * prompt_info)) : list (string * prompt_info) :=
  match l with
  | [] => [x]
  | y :: l' =>
      if priority_key x <=? priority_key y then x :: y :: l'
      else y :: insert_by_key x l'
  end.

Definition sorted_by_priority (items : list (string * prompt_info))
  : list (string * prompt_info) :=
  fold_right insert_by_key [] items.

Definition gap_line (kv : string * prompt_info) : string :=
  "  • _" ++ PyStr.take 72 (fst kv) ++ "_ (" ++ pi_category (snd kv) ++ ")".

Definition more_line (n : Z) : string :=
  "  _...and " ++ PyStr.of_int n ++ " more_".

Definition gap_header (n : Z) : string :=
  "*❌ Visibility Gaps — " ++ PyStr.of_int n ++ " prompts with no mention:*".

Definition gap_section (gaps : PyDict.t prompt_info) : list string :=
  let gaps_sorted := sorted_by_priority gaps in
  ([""; gap_header (Z.of_nat (List.length gaps))]
   ++ map gap_line (firstn 6 gaps_sorted)
   ++ (if 6 <? Z.of_nat (List.length gaps_sorted)
       then [more_line (Z.of_nat (List.length gaps_sorted) - 6)]
       else []))%list.

Definition overall_line (s : summary) : string :=
  "*Overall: " ++ PyStr.of_int (total_hits s) ++ "/"
    ++ PyStr.of_int (total_queries s) ++ " prompts ("
    ++ PyStr.of_int (overall_pct s) ++ "%)* — " ++ delta_str (wow_delta s).

Definition title_line (week : string) : string :=
  "🚛 *fleetTEC AI Visibility Report* — Week of " ++ week.

Definition format_lines (r : results) : result (list string) :=
  let s := summary_of r in
  plines <~ platform_lines (per_platform s) ;;
  Ok ([ title_line (week r);
        "━━━━━━━━━━━━━━━━━━━━━━━━━━━━━━";
        overall_line s;
        "";
        "*By Platform:*" ]
      ++ plines
      ++ winning_section (winning_prompts s)
      ++ gap_section (gap_prompts s)
      ++ [ "";
           "_Platforms: ChatGPT · Claude · Gemini · 25 prompts each · 75 total queries_" ])%list.

Definition format_slack_message (r : results) : result string :=
  lines <~ format_lines r ;;
  Ok (PyStr.join nl lines).

(** ** Slack delivery *)

Definition send_to_slack (message : string) : M unit :=
  fun w =>
    match webhook w message with
    | Failed e => (Raise (RequestException e), w)
    | Responded status_code _ =>
        if status_code =? 200 then (Ok tt, w) else (Raise (SystemExit 1), w)
    end.

(** ** Entry point *)

Definition main : M unit :=
  res <- run_tracker ;;
  message <- lift (format_slack_message res) ;;
  send_to_slack message.

(** The exit status of the interpreter for what [main] came to. *)
Definition exit_code {A} (r : result A) : Z :=
  match r with
  | Ok _ => 0
  | Raise (SystemExit code) => code
  | Raise _ => 1
  end.

(** ** Closed forms of the loops and of the run, used by the proofs *)

(** The text a query function returns for one outcome. A reply that is
    not a text gives none: the run stops at it, so no record is made
    from the empty text that stands for it here. *)
Definition response_text (o : outcome) : string :=
  match o with
  | Answer text => text
  | NotText => ""
  | Raised e => "ERROR: " ++ e
  end.

(** The world after [k] more requests. *)
Definition advance (k : nat) (w : World) : World :=
  mkWorld (today w) (clock w) (api w) (sent w + k) (webhook w) (data_dir w).

(** The world after one reading of the clock. *)
Definition tick (w : World) : World :=
  mkWorld (today w) (S (clock w)) (api w) (sent w) (webhook w) (data_dir w).

(** The replies to the requests for [prompts], the first of which is
    number [n], are all texts or exceptions. *)
Fixpoint all_text (w : World) (n : nat) (url : string)
    (prompts : list (string * string)) : bool :=
  match prompts with
  | [] => true
  | (_, prompt) :: rest =>
      match api w n url prompt with
      | NotText => false
      | _ => all_text w (S n) url rest
      end
  end.

(** The same for the 75 requests of a run that starts in [w]. *)
Definition replies_are_text (w : World) : bool :=
  let n := List.length PROMPTS in
  andb (all_text w (sent w) "https://api.openai.com/v1/chat/completions" PROMPTS)
    (andb (all_text w (sent w + n) "https://api.anthropic.com/v1/messages" PROMPTS)
       (all_text w (sent w + (n + n))
          "https://generativelanguage.googleapis.com/v1beta/models/gemini-2.0-flash:generateContent"
          PROMPTS)).

(** The records one platform gets when its first request is number [n]. *)
Fixpoint records_from (w : World) (n : nat) (url : string)
    (prompts : list (string * string)) : list response_record :=
  match prompts with
  | [] => []
  | (category, prompt) :: rest =>
      make_record category prompt (response_text (api w n url prompt))
        :: records_from w (S n) url rest
  end.

(** The platform dictionary a run builds in world [w]. *)
Definition platforms_in (w : World) : PyDict.t (list response_record) :=
  let n := List.length PROMPTS in
  [ ("chatgpt",
      records_from w (sent w) "https://api.openai.com/v1/chat/completions" PROMPTS);
    ("claude",
      records_from w (sent w + n) "https://api.anthropic.com/v1/messages" PROMPTS);
    ("gemini",
      records_from w (sent w + (n + n))
        "https://generativelanguage.googleapis.com/v1beta/models/gemini-2.0-flash:generateContent"
        PROMPTS) ].

Definition result_eqb (a b : result Z) : bool :=
  match a, b with
  | Ok x, Ok y => x =? y
  | _, _ => false
  end.

(** The document [load_previous_week] returns in world [w]. *)
Definition previous_doc (w : World) : option json :=
  match rev (sorted_names (filter (fun f => glob_week (fst f)) (data_dir w))) with
  | last :: _ => Some (snd last)
  | [] => None
  end.

Definition stats_of (pdata : list response_record) : platform_stats :=
  {| ps_hits := count_hits pdata;
     ps_total := Z.of_nat (List.length PROMPTS);
     ps_pct := 4 * count_hits pdata |}.

Definition results_in (w : World) (wow : option Z) : results :=
  let plats := platforms_in w in
  let hits := count_total_hits plats in
  let queries := Z.of_nat (List.length PROMPTS) * 3 in
  {| week := today w (clock w);
     platforms := plats;
     summary_of :=
       {| total_hits := hits;
          total_queries := queries;
          overall_pct := PyNum.round_half_even_quot (hits * 100) queries;
          per_platform := map (fun e => (fst e, stats_of (snd e))) plats;
          winning_prompts := filter is_winning (build_prompt_map plats);
          gap_prompts :=
            filter (fun kv => negb (is_winning kv)) (build_prompt_map plats);
          wow_delta := wow |} |}.

(** The endpoints in the order the run visits them. *)
Definition endpoints : list (string * string) :=
  [ ("chatgpt", "https://api.openai.com/v1/chat/completions");
    ("claude", "https://api.anthropic.com/v1/messages");
    ("gemini",
      "https://generativelanguage.googleapis.com/v1beta/models/gemini-2.0-flash:generateContent") ].

(** The number of the request that asks platform [k] prompt [i]. *)
Definition request_no (w : World) (k i : nat) : nat :=
  (sent w + k * List.length PROMPTS + i)%nat.

(** The platform list stored for [k], empty when [k] is not a key. *)
Definition platforms_of (k : string) (pm : PyDict.t prompt_info) : list string :=
  match PyDict.get k pm with
  | Some info => pi_platforms info
  | None => []
  end.

(** A prompt has a mention among [recs]. *)
Definition mentioned_in (k : string) (recs : list response_record) : Prop :=
  exists rec, In rec recs /\ r_prompt rec = k /\ r_mentioned rec = true.

(** File names in ascending order. *)
Definition name_le (x y : string * json) : Prop :=
  String.leb (fst x) (fst y) = true.

(** Every [week_*.json] file of the data directory is a snapshot that
    [save_results] wrote. *)
Definition persisted (w : World) : Prop :=
  forall name doc,
    In (name, doc) (data_dir w) -> glob_week name = true ->
    exists r0, doc = results_to_json r0.

Definition key_le (x y : string * prompt_info) : Prop :=
  priority_key x <= priority_key y.

(** Some record of [recs] for prompt [k] is a mention. *)
Definition mentions (k : string) (recs : list response_record) : bool :=
  existsb (fun rec => andb (String.eqb k (r_prompt rec)) (r_mentioned rec)) recs.

(** No string occurs twice. *)
Fixpoint nodupb (l : list string) : bool :=
  match l with
  | [] => true
  | x :: l' => andb (negb (existsb (String.eqb x) l')) (nodupb l')
  end.

(** The catalog lists prompt [p] under category [c]. *)
Definition in_catalog (c p : string) : Prop := In (c, p) PROMPTS.

(** The file [save_results] writes in world [w]: it is named by the date
    the clock gives when [save_results] reads it. A run has read the
    clock once before, so the file of a run that starts in [w] is
    [snapshot_path (tick w)]. *)
Definition snapshot_path (w : World) : string :=
  "week_" ++ today w (clock w) ++ ".json".

(** The requests the inner loop issues: it stops at the first reply
    that is not a text. *)
Fixpoint requests_made (w : World) (n : nat) (url : string)
    (prompts : list (string * string)) : nat :=
  match prompts with
  | [] => O
  | (_, prompt) :: rest =>
      match api w n url prompt with
      | NotText => 1%nat
      | _ => S (requests_made w (S n) url rest)
      end
  end.

(** The requests of a run that starts in [w]. *)
Definition requests_of_run (w : World) : nat :=
  let n := List.length PROMPTS in
  if all_text w (sent w) "https://api.openai.com/v1/chat/completions" PROMPTS
  then
    if all_text w (sent w + n) "https://api.anthropic.com/v1/messages" PROMPTS
    then
      (n + (n + requests_made w (sent w + (n + n))
                  "https://generativelanguage.googleapis.com/v1beta/models/gemini-2.0-flash:generateContent"
                  PROMPTS))%nat
    else
      (n + requests_made w (sent w + n) "https://api.anthropic.com/v1/messages"
             PROMPTS)%nat
  else
    requests_made w (sent w) "https://api.openai.com/v1/chat/completions" PROMPTS.

(** The world a run that starts in [w] leaves when it returns [r]: the
    clock has been read twice, 75 requests have been issued and the
    snapshot is in its file. *)
Definition saved (w : World) (r : results) : World :=
  mkWorld (today w) (S (S (clock w))) (api w)
    (sent w + 3 * List.length PROMPTS) (webhook w)
    (PyDict.set (snapshot_path (tick w)) (results_to_json r) (data_dir w)).

(** [c] is the letter [l] in either case: [l] itself or, when [l] is a
    small letter, its capital. *)
Definition same_letter (c l : ascii) : Prop :=
  c = l \/
  ((97 <= nat_of_ascii l)%nat /\ (nat_of_ascii l <= 122)%nat /\
   (nat_of_ascii c + 32)%nat = nat_of_ascii l).

(** [w] spells [v], letter by letter, in any mix of cases. *)
Fixpoint same_ignoring_case (w v : string) : Prop :=
  match w, v with
  | EmptyString, EmptyString => True
  | String c w', String l v' => same_letter c l /\ same_ignoring_case w' v'
  | _, _ => False
  end.

(** ** A sample world *)

Module Sample.

Definition replies (n : nat) (url prompt : string) : outcome :=
  match n with
  | 0%nat => Answer "FleetTEC is a well known upfitter."
  | 1%nat => Raised "HTTPSConnectionPool: read timed out"
  | 2%nat => Answer "ERROR codes aside, Fleet Tech is an option."
  | 30%nat => Answer "Consider fleet tec."
  | _ => Answer "There are many regional upfitters."
  end.

Definition world : World :=
  {| today := fun _ => "2025-03-10";
     clock := 0;
     api := replies;
     sent := 0;
     webhook := fun _ => Responded 200 "ok";
     data_dir := [] |}.

(** What the run in [world] returns. *)
Definition result : results := results_in world None.

(** The records of the first platform in that run, and the one whose
    request timed out. *)
Definition chatgpt_records : list response_record :=
  records_from world 0 "https://api.openai.com/v1/chat/completions" PROMPTS.

Definition timeout_record : response_record :=
  make_record "Public Safety"
    "How do I find a company to outfit my police fleet with technology?"
    "ERROR: HTTPSConnectionPool: read timed out".

(** The report of that run, line by line. *)
Definition report_lines : list string :=
  Eval vm_compute in
    match format_lines result with Ok lines => lines | Raise _ => [] end.

(** The world a week later: the first snapshot is on disk, next to a
    file that is not a snapshot, and the webhook is down. *)
Definition later : World :=
  {| today := fun _ => "2025-03-17";
     clock := 0;
     api := fun n url prompt =>
              match n with
              | 7%nat => Answer "fleetTEC, among others."
              | _ => replies n url prompt
              end;
     sent := 0;
     webhook := fun _ => Responded 503 "service unavailable";
     data_dir := [ ("week_2025-03-10.json", results_to_json result);
                   ("notes.txt", JStr "rotate the API keys in April") ] |}.

(** A world with a given data directory. *)
Definition with_dir (d : PyDict.t json) : World :=
  {| today := fun _ => "2025-03-17";
     clock := 0;
     api := replies;
     sent := 0;
     webhook := fun _ => Responded 200 "ok";
     data_dir := d |}.

(** The files of [later], listed in the other order. *)
Definition later_reordered : World :=
  {| today := today later;
     clock := 0;
     api := api later;
     sent := 0;
     webhook := webhook later;
     data_dir := [ ("notes.txt", JStr "rotate the API keys in April");
                   ("week_2025-03-10.json", results_to_json result) ] |}.

(** A run that starts on Sunday just before midnight: the clock gives
    Monday when the snapshot is saved. *)
Definition overnight : World :=
  {| today := fun n => match n with
                       | O => "2025-03-09"
                       | _ => "2025-03-10"
                       end;
     clock := 0;
     api := replies;
     sent := 0;
     webhook := fun _ => Responded 200 "ok";
     data_dir := [] |}.

(** A world whose second endpoint answers its third request with a
    reply that has a JSON null where the text should be. *)
Definition null_reply : World :=
  {| today := fun _ => "2025-03-10";
     clock := 0;
     api := fun n url prompt =>
              match n with
              | 27%nat => NotText
              | _ => replies n url prompt
              end;
     sent := 0;
     webhook := fun _ => Responded 200 "ok";
     data_dir := [] |}.

(** A text with characters outside ASCII: 9 code points in 11 bytes. *)
Definition accented : string := "Caf" ++ String (ascii_of_nat 195)
  (String (ascii_of_nat 169) (" Z" ++ String (ascii_of_nat 195)
  (String (ascii_of_nat 188) "ri"))).

(** A summary that names a platform the formatter does not know. *)
Definition foreign_results : results :=
  {| week := "2025-03-17";
     platforms := [];
     summary_of :=
       {| total_hits := 1;
          total_queries := 2;
          overall_pct := 50;
          per_platform :=
            [ ("chatgpt", {| ps_hits := 1; ps_total := 1; ps_pct := 100 |});
              ("bing", {| ps_hits := 0; ps_total := 1; ps_pct := 0 |}) ];
          winning_prompts := [];
          gap_prompts := [];
          wow_delta := None |} |}.

End Sample.

(** * Verification *)

(** ** String lemmas *)

Section StringFacts.

Lemma startswith_spec (s p : string) :
  PyStr.startswith s p = true <-> exists post, s = p ++ post.
Proof.
  revert s; induction p as [|pc p IH]; intros s; simpl.
  - split; [intros _; now exists s | reflexivity].
  - destruct s as [|sc s].
    + split; [discriminate | intros [post H]; discriminate].
    + destruct (Ascii.eqb_spec sc pc) as [->|Hne].
      * rewrite IH. split; intros [post H]; exists post.
        -- now rewrite H.
        -- now inversion H.
      * split; [discriminate|]. intros [post H]. inversion H. contradiction.
Qed.

Lemma contains_spec (t v : string) :
  PyStr.contains t v = true <-> substring_of v t.
Proof.
  induction t as [|c t IH]; simpl.
  - destruct (PyStr.startswith "" v) eqn:E.
    + split; [intros _|reflexivity].
      apply startswith_spec in E. destruct E as [post E].
      exists "", post. exact E.
    + split; [discriminate|]. intros (pre & post & H).
      destruct pre; simpl in H.
      * assert (PyStr.startswith "" v = true)
          by (apply startswith_spec; now exists post).
        congruence.
      * discriminate.
  - destruct (PyStr.startswith (String c t) v) eqn:E.
    + split; [intros _|reflexivity].
      apply startswith_spec in E. destruct E as [post E].
      exists "", post. exact E.
    + rewrite IH. split.
      * intros (pre & post & H). exists (String c pre), post. simpl. now rewrite H.
      * intros (pre & post & H). destruct pre as [|c' pre]; simpl in H.
        -- assert (PyStr.startswith (String c t) v = true)
             by (apply startswith_spec; now exists post).
           congruence.
        -- inversion H. now exists pre, post.
Qed.

Lemma lower_app (a b : string) :
  PyStr.lower (a ++ b) = PyStr.lower a ++ PyStr.lower b.
Proof. induction a as [|c a IH]; simpl; [reflexivity | now rewrite IH]. Qed.

Lemma lower_length (s : string) : String.length (PyStr.lower s) = String.length s.
Proof. induction s as [|c s IH]; simpl; [reflexivity | now rewrite IH]. Qed.

(** A lowercased text splits the way the text does. *)
Lemma lower_split (t a b : string) :
  PyStr.lower t = a ++ b ->
  exists ta tb, t = ta ++ tb /\ PyStr.lower ta = a /\ PyStr.lower tb = b.
Proof.
  revert t; induction a as [|c a IH]; intros t H; simpl in H.
  - exists "", t. auto.
  - destruct t as [|tc t]; simpl in H; [discriminate|].
    inversion H as [[Hc Ht]]. destruct (IH _ Ht) as (ta & tb & -> & Ha & Hb).
    exists (String tc ta), tb. simpl. rewrite Ha. auto.
Qed.

End StringFacts.

(** A character that [lower] leaves alone is matched, after lowering,
    by itself and by its capital only. *)
Lemma lower_ascii_same_letter c l :
  PyStr.lower_ascii l = l ->
  (PyStr.lower_ascii c = l <-> same_letter c l).
Proof.
  unfold PyStr.lower_ascii, same_letter. cbv zeta.
  pose proof (nat_ascii_bounded c) as Bc.
  pose proof (nat_ascii_bounded l) as Bl.
  intros Hl.
  assert (Hnl : ~ (65 <= nat_of_ascii l <= 90)%nat).
  { intros [H1 H2].
    rewrite (proj2 (Nat.leb_le _ _) H1), (proj2 (Nat.leb_le _ _) H2) in Hl.
    cbn [andb] in Hl.
    apply (f_equal nat_of_ascii) in Hl.
    rewrite nat_ascii_embedding in Hl; lia. }
  destruct (Nat.leb_spec 65 (nat_of_ascii c)) as [H1|H1];
    destruct (Nat.leb_spec (nat_of_ascii c) 90) as [H2|H2]; cbn [andb].
  - split.
    + intros H. right. apply (f_equal nat_of_ascii) in H.
      rewrite nat_ascii_embedding in H; lia.
    + intros [->|(_ & _ & H)]; [lia|].
      now rewrite H, ascii_nat_embedding.
  - split; [now left|]. intros [H|(A & B & H)]; [exact H | lia].
  - split; [now left|]. intros [H|(A & B & H)]; [exact H | lia].
  - split; [now left|]. intros [H|(A & B & H)]; [exact H | lia].
Qed.

(** A piece of text lowers to a word without capitals exactly when it
    spells the word in some mix of cases. *)
Lemma lower_same_ignoring_case v :
  PyStr.lower v = v ->
  forall w, PyStr.lower w = v <-> same_ignoring_case w v.
Proof.
  induction v as [|l v IH]; intros Hv w.
  - destruct w; cbn [PyStr.lower same_ignoring_case];
      split; try reflexivity; try discriminate; try tauto.
  - cbn [PyStr.lower] in Hv. injection Hv as Hl Hv.
    destruct w as [|c w]; cbn [PyStr.lower same_ignoring_case].
    + split; [discriminate | tauto].
    + rewrite <- (IH Hv w), <- (lower_ascii_same_letter c l Hl). split.
      * intros [= H1 H2]. auto.
      * intros [-> ->]. reflexivity.
Qed.

Lemma variants_are_lowercase v : In v BRAND_VARIANTS -> PyStr.lower v = v.
Proof. intros [<-|[<-|[<-|[<-|[]]]]]; reflexivity. Qed.

(** C1. The variants are the four names [fleettec], [fleet tec],
    [fleettech], [fleet tech]. For every text [t], [brand_mentioned t]
    is true exactly when the lowercased text contains one of them as a
    substring; equivalently, exactly when [t] itself contains a piece
    that spells one of them letter by letter, each letter small or
    capital (a case-insensitive occurrence). It is false exactly when
    there is no such occurrence. *)
Theorem brand_mentioned_iff (t : string) :
  BRAND_VARIANTS = ["fleettec"; "fleet tec"; "fleettech"; "fleet tech"] /\
  (brand_mentioned t = true <->
     exists v, In v BRAND_VARIANTS /\ substring_of v (PyStr.lower t)) /\
  (brand_mentioned t = true <->
     exists v pre w post, In v BRAND_VARIANTS /\ t = pre ++ w ++ post /\
                          PyStr.lower w = v) /\
  (brand_mentioned t = false <->
     forall v, In v BRAND_VARIANTS -> ~ substring_of v (PyStr.lower t)) /\
  (brand_mentioned t = true <->
     exists v pre w post,
       In v ["fleettec"; "fleet tec"; "fleettech"; "fleet tech"] /\
       t = pre ++ w ++ post /\ same_ignoring_case w v) /\
  (brand_mentioned t = false <->
     forall v pre w post,
       In v ["fleettec"; "fleet tec"; "fleettech"; "fleet tech"] ->
       t = pre ++ w ++ post -> ~ same_ignoring_case w v) /\
  (forall pre post,
      brand_mentioned (pre ++ "fleetTEC" ++ post) = true /\
      brand_mentioned (pre ++ "Fleet Tec" ++ post) = true /\
      brand_mentioned (pre ++ "FLEETTECH" ++ post) = true /\
      brand_mentioned (pre ++ "Fleet tech" ++ post) = true).
Proof.
  assert (H1 : forall t, brand_mentioned t = true <->
     exists v, In v BRAND_VARIANTS /\ substring_of v (PyStr.lower t)).
  { intros t0. unfold brand_mentioned. rewrite existsb_exists.
    split; intros (v & Hin & Hc); exists v; split; auto;
      now apply contains_spec. }
  assert (H2 : forall t, brand_mentioned t = true <->
     exists v pre w post, In v BRAND_VARIANTS /\ t = pre ++ w ++ post /\
                          PyStr.lower w = v).
  { intros t0. rewrite H1. split.
    - intros (v & Hin & pre & post & H).
      apply lower_split in H. destruct H as (ta & tb & -> & Ha & Hb).
      apply lower_split in Hb. destruct Hb as (w & tc & -> & Hw & Hc).
      exists v, ta, w, tc. auto.
    - intros (v & pre & w & post & Hin & -> & Hw).
      exists v. split; [exact Hin|].
      exists (PyStr.lower pre), (PyStr.lower post).
      now rewrite !lower_app, Hw. }
  assert (H3 : forall t, brand_mentioned t = true <->
     exists v pre w post,
       In v ["fleettec"; "fleet tec"; "fleettech"; "fleet tech"] /\
       t = pre ++ w ++ post /\ same_ignoring_case w v).
  { intros t0. rewrite H2.
    split; intros (v & pre & w & post & Hin & Ht & Hw);
      exists v, pre, w, post; (split; [exact Hin|]); (split; [exact Ht|]);
      now apply (lower_same_ignoring_case v (variants_are_lowercase v Hin)). }
  split; [reflexivity|]. split; [apply H1|]. split; [apply H2|].
  split; [|split; [apply H3|split]].
  - split.
    + intros Hf v Hin Hs.
      assert (brand_mentioned t = true) by (apply H1; eauto). congruence.
    + intros Hn. apply not_true_is_false. intros E.
      apply H1 in E. destruct E as (v & Hin & Hs). now elim (Hn v Hin).
  - split.
    + intros Hf v pre w post Hin Ht Hw.
      assert (brand_mentioned t = true)
        by (apply H3; exists v, pre, w, post; auto).
      congruence.
    + intros Hn. apply not_true_is_false. intros E.
      apply H3 in E. destruct E as (v & pre & w & post & Hin & Ht & Hw).
      now elim (Hn v pre w post Hin Ht).
  - intros pre post. repeat split; apply H2.
    + exists "fleettec", pre, "fleetTEC", post.
      split; [now left | split; reflexivity].
    + exists "fleet tec", pre, "Fleet Tec", post.
      split; [right; now left | split; reflexivity].
    + exists "fleettech", pre, "FLEETTECH", post.
      split; [right; right; now left | split; reflexivity].
    + exists "fleet tech", pre, "Fleet tech", post.
      split; [right; right; right; now left | split; reflexivity].
Qed.

Example brand_mentioned_upper :
  brand_mentioned "We recommend FleetTEC of Florida." = true.
Proof. reflexivity. Qed.

Example brand_mentioned_absent :
  brand_mentioned "Try a local upfitter such as Fleet Technologies Inc?" = true
  /\ brand_mentioned "Try a local upfitter." = false.
Proof. split; reflexivity. Qed.

(** ** Dictionaries *)

Section DictFacts.

Context {V : Type}.
Implicit Types (d : PyDict.t V) (k : string) (v : V).

Lemma get_set_same k v d : PyDict.get k (PyDict.set k v d) = Some v.
Proof.
  induction d as [|[k' v'] d IH]; simpl.
  - now rewrite String.eqb_refl.
  - destruct (String.eqb k k') eqn:E; simpl; rewrite E; auto.
Qed.

Lemma get_set_other k k' v d :
  k <> k' -> PyDict.get k' (PyDict.set k v d) = PyDict.get k' d.
Proof.
  intros Hne. induction d as [|[k0 v0] d IH]; simpl.
  - destruct (String.eqb_spec k' k); [congruence | reflexivity].
  - destruct (String.eqb_spec k k0) as [->|Hk]; simpl.
    + destruct (String.eqb_spec k' k0); [congruence | reflexivity].
    + destruct (String.eqb_spec k' k0); [reflexivity | exact IH].
Qed.

Lemma keys_set_mem k v d :
  PyDict.mem k d = true -> PyDict.keys (PyDict.set k v d) = PyDict.keys d.
Proof.
  unfold PyDict.mem, PyDict.keys.
  induction d as [|[k' v'] d IH]; simpl; [discriminate|].
  destruct (String.eqb k k') eqn:E; simpl; [reflexivity|].
  intros H. now rewrite IH.
Qed.

Lemma keys_set_fresh k v d :
  PyDict.mem k d = false ->
  PyDict.keys (PyDict.set k v d) = (PyDict.keys d ++ [k])%list.
Proof.
  unfold PyDict.mem, PyDict.keys.
  induction d as [|[k' v'] d IH]; simpl; [reflexivity|].
  destruct (String.eqb k k') eqn:E; simpl; [discriminate|].
  intros H. now rewrite IH.
Qed.

Lemma mem_true_iff k d : PyDict.mem k d = true <-> In k (PyDict.keys d).
Proof.
  unfold PyDict.mem, PyDict.keys.
  induction d as [|[k' v'] d IH]; simpl.
  - split; [discriminate | tauto].
  - destruct (String.eqb_spec k k') as [->|Hne].
    + split; auto.
    + rewrite IH. split; [auto | intros [H|H]; [congruence | exact H]].
Qed.

Lemma get_some_in k v d : PyDict.get k d = Some v -> In (k, v) d.
Proof.
  induction d as [|[k' v'] d IH]; simpl; [discriminate|].
  destruct (String.eqb_spec k k') as [->|Hne].
  - intros [= ->]. now left.
  - intros H. right. auto.
Qed.

Lemma in_get_nodup k v d :
  NoDup (PyDict.keys d) -> In (k, v) d -> PyDict.get k d = Some v.
Proof.
  unfold PyDict.keys.
  induction d as [|[k' v'] d IH]; simpl; [tauto|].
  intros Hnd [H|H].
  - inversion H; subst. now rewrite String.eqb_refl.
  - inversion Hnd as [|? ? Hn Hnd']; subst.
    destruct (String.eqb_spec k k') as [->|Hne].
    + elim Hn. change k' with (fst (k', v)). now apply in_map.
    + auto.
Qed.

Lemma set_get_id k v d : PyDict.get k d = Some v -> PyDict.set k v d = d.
Proof.
  induction d as [|[k' v'] d IH]; simpl; [discriminate|].
  destruct (String.eqb_spec k k') as [->|Hne].
  - now intros [= ->].
  - intros H. now rewrite IH.
Qed.

Lemma set_set k v1 v2 d :
  PyDict.set k v2 (PyDict.set k v1 d) = PyDict.set k v2 d.
Proof.
  induction d as [|[k' v'] d IH]; simpl.
  - now rewrite String.eqb_refl.
  - destruct (String.eqb k k') eqn:E; simpl; rewrite E; [reflexivity|].
    now rewrite IH.
Qed.

End DictFacts.

(** ** The query loops, in closed form *)

Lemma advance_0 w : advance 0 w = w.
Proof. destruct w; unfold advance; simpl. now rewrite Nat.add_0_r. Qed.

Lemma advance_advance j k w : advance k (advance j w) = advance (j + k) w.
Proof. unfold advance; simpl. now rewrite Nat.add_assoc. Qed.

Lemma advance_tick k w : advance k (tick w) = tick (advance k w).
Proof. reflexivity. Qed.

Lemma sent_advance k w : sent (advance k w) = (sent w + k)%nat.
Proof. reflexivity. Qed.

(** The records and the test on the replies depend on the world through
    its endpoints only. *)
Lemma records_from_api w w' url prompts :
  api w' = api w ->
  forall n, records_from w' n url prompts = records_from w n url prompts.
Proof.
  intros Ha. induction prompts as [|[c p] rest IH]; intros n; simpl;
    [reflexivity | now rewrite IH, Ha].
Qed.

Lemma all_text_api w w' url prompts :
  api w' = api w ->
  forall n, all_text w' n url prompts = all_text w n url prompts.
Proof.
  intros Ha. induction prompts as [|[c p] rest IH]; intros n; simpl;
    [reflexivity | now rewrite IH, Ha].
Qed.

Lemma records_from_advance k w url prompts n :
  records_from (advance k w) n url prompts = records_from w n url prompts.
Proof. now apply records_from_api. Qed.

Lemma all_text_advance k w url prompts n :
  all_text (advance k w) n url prompts = all_text w n url prompts.
Proof. now apply all_text_api. Qed.

Lemma query_endpoint_text url prompt w :
  api w (sent w) url prompt <> NotText ->
  query_endpoint url prompt w
  = (Ok (Str (response_text (api w (sent w) url prompt))), advance 1 w).
Proof.
  unfold query_endpoint, http_post, advance.
  rewrite Nat.add_1_r.
  destruct (api w (sent w) url prompt); [reflexivity | congruence | reflexivity].
Qed.

Lemma query_endpoint_not_text url prompt w :
  api w (sent w) url prompt = NotText ->
  query_endpoint url prompt w = (Ok NotStr, advance 1 w).
Proof.
  unfold query_endpoint, http_post, advance.
  rewrite Nat.add_1_r. now intros ->.
Qed.

Lemma all_text_cons w n url c p rest :
  all_text w n url ((c, p) :: rest)
  = match api w n url p with
    | NotText => false
    | _ => all_text w (S n) url rest
    end.
Proof. reflexivity. Qed.

(** The inner loop when every reply is a text or an exception. *)
Lemma query_prompts_run name url prompts : forall plats recs w,
  PyDict.get name plats = Some recs ->
  all_text w (sent w) url prompts = true ->
  query_prompts name (query_endpoint url) prompts plats w
  = (Ok (PyDict.set name (recs ++ records_from w (sent w) url prompts)%list plats),
     advance (List.length prompts) w).
Proof.
  induction prompts as [|[category prompt] rest IH]; intros plats recs w Hget Hall.
  - simpl. unfold ret. rewrite advance_0, app_nil_r.
    now rewrite (set_get_id _ _ _ Hget).
  - rewrite all_text_cons in Hall.
    assert (Ha : api w (sent w) url prompt <> NotText)
      by (intros E; rewrite E in Hall; discriminate).
    assert (Hrest : all_text w (S (sent w)) url rest = true)
      by (destruct (api w (sent w) url prompt); [exact Hall | congruence | exact Hall]).
    simpl. unfold bind at 1. rewrite (query_endpoint_text _ _ _ Ha).
    unfold bind at 1, lift at 1. cbn [str_method].
    unfold bind at 1, lift, PyDict.getitem. rewrite Hget.
    rewrite (IH _ _ _ (get_set_same _ _ _))
      by (rewrite all_text_advance, sent_advance;
          now rewrite Nat.add_1_r).
    rewrite set_set, advance_advance, <- app_assoc. simpl.
    now rewrite records_from_advance, Nat.add_1_r.
Qed.

Lemma requests_made_api w w' url prompts :
  api w' = api w ->
  forall n, requests_made w' n url prompts = requests_made w n url prompts.
Proof.
  intros Ha. induction prompts as [|[c p] rest IH]; intros n; simpl;
    [reflexivity | now rewrite IH, Ha].
Qed.

Lemma requests_made_advance k w url prompts n :
  requests_made (advance k w) n url prompts = requests_made w n url prompts.
Proof. now apply requests_made_api. Qed.

Lemma requests_made_cons w n url c p rest :
  requests_made w n url ((c, p) :: rest)
  = match api w n url p with
    | NotText => 1%nat
    | _ => S (requests_made w (S n) url rest)
    end.
Proof. reflexivity. Qed.

Lemma requests_made_le w url prompts : forall n,
  (requests_made w n url prompts <= List.length prompts)%nat.
Proof.
  induction prompts as [|[c p] rest IH]; intros n; simpl; [lia|].
  specialize (IH (S n)). destruct (api w n url p); lia.
Qed.

Lemma requests_made_all_text w url prompts : forall n,
  all_text w n url prompts = true ->
  requests_made w n url prompts = List.length prompts.
Proof.
  induction prompts as [|[c p] rest IH]; intros n; simpl; [reflexivity|].
  destruct (api w n url p); intros H; try discriminate; now rewrite IH.
Qed.

(** The inner loop when some reply is not a text: it stops at the first
    such reply, having changed nothing but the number of requests. *)
Lemma query_prompts_stop name url prompts : forall plats recs w,
  PyDict.get name plats = Some recs ->
  all_text w (sent w) url prompts = false ->
  query_prompts name (query_endpoint url) prompts plats w
  = (Raise AttributeError, advance (requests_made w (sent w) url prompts) w).
Proof.
  induction prompts as [|[category prompt] rest IH]; intros plats recs w Hget Hall.
  - discriminate.
  - rewrite all_text_cons in Hall. rewrite requests_made_cons.
    destruct (api w (sent w) url prompt) as [text| |e] eqn:Ea.
    + assert (Ha : api w (sent w) url prompt <> NotText) by congruence.
      cbn [query_prompts]. unfold bind at 1.
      rewrite (query_endpoint_text _ _ _ Ha), Ea. cbn [response_text].
      unfold bind at 1, lift at 1. cbn [str_method].
      unfold bind at 1, lift, PyDict.getitem. rewrite Hget.
      rewrite (IH _ _ _ (get_set_same _ _ _))
        by (rewrite all_text_advance, sent_advance; now rewrite Nat.add_1_r).
      rewrite requests_made_advance, sent_advance, advance_advance.
      now rewrite (Nat.add_1_r (sent w)), Nat.add_1_l.
    + cbn [query_prompts]. unfold bind at 1.
      rewrite (query_endpoint_not_text _ _ _ Ea).
      unfold bind at 1, lift at 1. reflexivity.
    + assert (Ha : api w (sent w) url prompt <> NotText) by congruence.
      cbn [query_prompts]. unfold bind at 1.
      rewrite (query_endpoint_text _ _ _ Ha), Ea. cbn [response_text].
      unfold bind at 1, lift at 1. cbn [str_method].
      unfold bind at 1, lift, PyDict.getitem. rewrite Hget.
      rewrite (IH _ _ _ (get_set_same _ _ _))
        by (rewrite all_text_advance, sent_advance; now rewrite Nat.add_1_r).
      rewrite requests_made_advance, sent_advance, advance_advance.
      now rewrite (Nat.add_1_r (sent w)), Nat.add_1_l.
Qed.

Lemma replies_are_text_split w :
  replies_are_text w
  = andb (all_text w (sent w) "https://api.openai.com/v1/chat/completions" PROMPTS)
      (andb (all_text w (sent w + List.length PROMPTS)
               "https://api.anthropic.com/v1/messages" PROMPTS)
         (all_text w (sent w + (List.length PROMPTS + List.length PROMPTS))
            "https://generativelanguage.googleapis.com/v1beta/models/gemini-2.0-flash:generateContent"
            PROMPTS)).
Proof. reflexivity. Qed.

Lemma query_platforms_run w :
  replies_are_text w = true ->
  query_platforms
    [ ("chatgpt", query_openai); ("claude", query_anthropic);
      ("gemini", query_gemini) ]
    [ ("chatgpt", []); ("claude", []); ("gemini", []) ] w
  = (Ok (platforms_in w), advance (3 * List.length PROMPTS) w).
Proof.
  rewrite replies_are_text_split. intros H.
  apply andb_true_iff in H. destruct H as [H1 H].
  apply andb_true_iff in H. destruct H as [H2 H3].
  unfold query_platforms, query_openai, query_anthropic, query_gemini.
  unfold bind at 1.
  erewrite (query_prompts_run "chatgpt"); [|reflexivity|exact H1].
  unfold bind at 1.
  erewrite (query_prompts_run "claude");
    [|reflexivity|rewrite all_text_advance, sent_advance; exact H2].
  unfold bind at 1.
  erewrite (query_prompts_run "gemini");
    [|reflexivity
     |rewrite !all_text_advance, !sent_advance, <- Nat.add_assoc; exact H3].
  unfold ret. rewrite !advance_advance, !records_from_advance.
  reflexivity.
Qed.

Lemma requests_of_run_unfold w :
  requests_of_run w
  = if all_text w (sent w) "https://api.openai.com/v1/chat/completions" PROMPTS
    then
      if all_text w (sent w + List.length PROMPTS)
           "https://api.anthropic.com/v1/messages" PROMPTS
      then
        (List.length PROMPTS
         + (List.length PROMPTS
            + requests_made w
                (sent w + (List.length PROMPTS + List.length PROMPTS))
                "https://generativelanguage.googleapis.com/v1beta/models/gemini-2.0-flash:generateContent"
                PROMPTS))%nat
      else
        (List.length PROMPTS
         + requests_made w (sent w + List.length PROMPTS)
             "https://api.anthropic.com/v1/messages" PROMPTS)%nat
    else
      requests_made w (sent w) "https://api.openai.com/v1/chat/completions"
        PROMPTS.
Proof. reflexivity. Qed.

(** A run of the loops that meets a reply that is not a text stops
    there with [AttributeError]. *)
Lemma query_platforms_stop w :
  replies_are_text w = false ->
  query_platforms
    [ ("chatgpt", query_openai); ("claude", query_anthropic);
      ("gemini", query_gemini) ]
    [ ("chatgpt", []); ("claude", []); ("gemini", []) ] w
  = (Raise AttributeError, advance (requests_of_run w) w).
Proof.
  rewrite replies_are_text_split, requests_of_run_unfold.
  unfold query_platforms, query_openai, query_anthropic, query_gemini.
  change (fun prompt : string =>
            query_endpoint "https://api.openai.com/v1/chat/completions" prompt)
    with (query_endpoint "https://api.openai.com/v1/chat/completions").
  change (fun prompt : string =>
            query_endpoint "https://api.anthropic.com/v1/messages" prompt)
    with (query_endpoint "https://api.anthropic.com/v1/messages").
  change (fun prompt : string =>
            query_endpoint
              "https://generativelanguage.googleapis.com/v1beta/models/gemini-2.0-flash:generateContent"
              prompt)
    with (query_endpoint
            "https://generativelanguage.googleapis.com/v1beta/models/gemini-2.0-flash:generateContent").
  destruct (all_text w (sent w) "https://api.openai.com/v1/chat/completions"
              PROMPTS) eqn:H1.
  - unfold bind at 1.
    erewrite (query_prompts_run "chatgpt"); [|reflexivity|exact H1].
    destruct (all_text w (sent w + List.length PROMPTS)
                "https://api.anthropic.com/v1/messages" PROMPTS) eqn:H2.
    + unfold bind at 1.
      erewrite (query_prompts_run "claude");
        [|reflexivity|rewrite all_text_advance, sent_advance; exact H2].
      destruct (all_text w
                  (sent w + (List.length PROMPTS + List.length PROMPTS))
                  "https://generativelanguage.googleapis.com/v1beta/models/gemini-2.0-flash:generateContent"
                  PROMPTS) eqn:H3; [discriminate|].
      intros _. unfold bind at 1.
      erewrite (query_prompts_stop "gemini");
        [|reflexivity
         |rewrite !all_text_advance, !sent_advance, <- Nat.add_assoc; exact H3].
      rewrite !requests_made_advance, !sent_advance, !advance_advance.
      now rewrite <- (Nat.add_assoc (sent w)).
    + intros _. unfold bind at 1.
      erewrite (query_prompts_stop "claude");
        [|reflexivity|rewrite all_text_advance, sent_advance; exact H2].
      now rewrite requests_made_advance, sent_advance, advance_advance.
  - intros _. unfold bind at 1.
    erewrite (query_prompts_stop "chatgpt"); [|reflexivity|exact H1].
    reflexivity.
Qed.

Lemma requests_of_run_le w : (requests_of_run w <= 75)%nat.
Proof.
  rewrite requests_of_run_unfold.
  pose proof (requests_made_le w "https://api.openai.com/v1/chat/completions"
                PROMPTS (sent w)) as L1.
  pose proof (requests_made_le w "https://api.anthropic.com/v1/messages"
                PROMPTS (sent w + List.length PROMPTS)) as L2.
  pose proof (requests_made_le w
                "https://generativelanguage.googleapis.com/v1beta/models/gemini-2.0-flash:generateContent"
                PROMPTS (sent w + (List.length PROMPTS + List.length PROMPTS)))
    as L3.
  change (List.length PROMPTS) with 25%nat in *.
  destruct (all_text w (sent w) _ PROMPTS);
    [destruct (all_text w (sent w + 25) _ PROMPTS)|]; lia.
Qed.

Lemma requests_of_run_all_text w :
  replies_are_text w = true -> requests_of_run w = 75%nat.
Proof.
  rewrite replies_are_text_split, requests_of_run_unfold. intros H.
  apply andb_true_iff in H. destruct H as [H1 H].
  apply andb_true_iff in H. destruct H as [H2 H3].
  rewrite H1, H2, (requests_made_all_text _ _ _ _ H3). reflexivity.
Qed.

(** What the test on the replies says, request by request. *)
Lemma all_text_nth w url prompts : forall n,
  all_text w n url prompts = true <->
  forall i c p, nth_error prompts i = Some (c, p) ->
                api w (n + i) url p <> NotText.
Proof.
  induction prompts as [|[c0 p0] rest IH]; intros n.
  - split; [intros _ [|i] c p H; discriminate | reflexivity].
  - rewrite all_text_cons. split.
    + intros H [|i] c p Hi; cbn [nth_error] in Hi.
      * injection Hi as <- <-. rewrite Nat.add_0_r.
        intros E. rewrite E in H. discriminate.
      * rewrite Nat.add_succ_r. apply (proj1 (IH (S n))) with (c := c);
          [|exact Hi].
        destruct (api w n url p0); [exact H | discriminate | exact H].
    + intros H.
      assert (H0 : api w n url p0 <> NotText)
        by (rewrite <- (Nat.add_0_r n); now apply (H 0%nat c0 p0)).
      assert (Hr : all_text w (S n) url rest = true).
      { apply IH. intros i c p Hi. rewrite Nat.add_succ_comm.
        now apply (H (S i) c p). }
      destruct (api w n url p0); [exact Hr | congruence | exact Hr].
Qed.

Lemma replies_are_text_spec w :
  replies_are_text w = true <->
  forall k i name url c p,
    nth_error endpoints k = Some (name, url) ->
    nth_error PROMPTS i = Some (c, p) ->
    api w (request_no w k i) url p <> NotText.
Proof.
  rewrite replies_are_text_split, !andb_true_iff, !all_text_nth.
  unfold request_no. split.
  - intros (H1 & H2 & H3) k i name url c p Hk Hi.
    destruct k as [|[|[|k]]]; cbn [nth_error endpoints] in Hk;
      try (destruct k; discriminate); injection Hk as <- <-.
    + rewrite Nat.mul_0_l, Nat.add_0_r. now apply (H1 i c p).
    + rewrite Nat.mul_1_l. now apply (H2 i c p).
    + replace (2 * List.length PROMPTS)%nat
        with (List.length PROMPTS + List.length PROMPTS)%nat by lia.
      now apply (H3 i c p).
  - intros H. split; [|split]; intros i c p Hi.
    + pose proof (H 0%nat i _ _ c p eq_refl Hi) as G.
      now rewrite Nat.mul_0_l, Nat.add_0_r in G.
    + pose proof (H 1%nat i _ _ c p eq_refl Hi) as G.
      now rewrite Nat.mul_1_l in G.
    + pose proof (H 2%nat i _ _ c p eq_refl Hi) as G.
      replace (2 * List.length PROMPTS)%nat
        with (List.length PROMPTS + List.length PROMPTS)%nat in G by lia.
      exact G.
Qed.

(** ** Percentages *)

Lemma result_eqb_eq a b : result_eqb a b = true -> a = b.
Proof.
  destruct a, b; simpl; try discriminate.
  intros H. apply Z.eqb_eq in H. now subst.
Qed.

(** A check on [0..n] carried out by evaluation. *)
Lemma range_check (P : Z -> bool) (n : nat) :
  forallb P (map Z.of_nat (seq 0 (S n))) = true ->
  forall h, 0 <= h <= Z.of_nat n -> P h = true.
Proof.
  intros Hall h Hh. rewrite forallb_forall in Hall. apply Hall.
  rewrite <- (Z2Nat.id h) by lia. apply in_map, in_seq. lia.
Qed.

(** A platform's percentage is four times its hit count. *)
Lemma pct_of_platform h :
  0 <= h <= Z.of_nat (List.length PROMPTS) ->
  pct_of h (Z.of_nat (List.length PROMPTS)) = Ok (4 * h).
Proof.
  intros Hh. apply result_eqb_eq.
  apply (range_check
           (fun h => result_eqb (pct_of h (Z.of_nat (List.length PROMPTS)))
                                (Ok (4 * h)))
           (List.length PROMPTS)); [vm_compute; reflexivity | exact Hh].
Qed.

(** The float computation of the overall percentage agrees with the
    exact rounding of [hits * 100 / 75]. *)
Lemma pct_of_overall h :
  0 <= h <= Z.of_nat (List.length PROMPTS) * 3 ->
  pct_of h (Z.of_nat (List.length PROMPTS) * 3)
  = Ok (PyNum.round_half_even_quot (h * 100) (Z.of_nat (List.length PROMPTS) * 3)).
Proof.
  intros Hh. apply result_eqb_eq.
  apply (range_check
           (fun h =>
              result_eqb (pct_of h (Z.of_nat (List.length PROMPTS) * 3))
                (Ok (PyNum.round_half_even_quot (h * 100)
                       (Z.of_nat (List.length PROMPTS) * 3))))
           (List.length PROMPTS * 3)); [vm_compute; reflexivity | lia].
Qed.

(** ** Facts about the records of a platform *)

Lemma records_from_length w url prompts : forall n,
  List.length (records_from w n url prompts) = List.length prompts.
Proof.
  induction prompts as [|[c p] rest IH]; intros n; simpl;
    [reflexivity | now rewrite IH].
Qed.

Lemma records_from_nth w url prompts : forall n i c p,
  nth_error prompts i = Some (c, p) ->
  nth_error (records_from w n url prompts) i
  = Some (make_record c p (response_text (api w (n + i) url p))).
Proof.
  induction prompts as [|[c0 p0] rest IH]; intros n i c p H.
  - destruct i; discriminate.
  - destruct i as [|i]; simpl in *.
    + inversion H; subst. now rewrite Nat.add_0_r.
    + rewrite (IH (S n) i c p H). now rewrite Nat.add_succ_r.
Qed.

Lemma records_from_in w url prompts : forall n r,
  In r (records_from w n url prompts) ->
  exists c p response, In (c, p) prompts /\ r = make_record c p response.
Proof.
  induction prompts as [|[c0 p0] rest IH]; intros n r H; simpl in H.
  - contradiction.
  - destruct H as [<-|H].
    + exists c0, p0, (response_text (api w n url p0)). split; [now left | reflexivity].
    + destruct (IH _ _ H) as (c & p & resp & Hin & ->).
      exists c, p, resp. split; [now right | reflexivity].
Qed.

Lemma records_from_prompts w url prompts : forall n,
  map (fun r => (r_category r, r_prompt r)) (records_from w n url prompts)
  = prompts.
Proof.
  induction prompts as [|[c p] rest IH]; intros n; simpl;
    [reflexivity | now rewrite IH].
Qed.

Lemma count_hits_bound pdata :
  0 <= count_hits pdata <= Z.of_nat (List.length pdata).
Proof.
  unfold count_hits. pose proof (filter_length_le r_mentioned pdata). lia.
Qed.

Lemma platforms_in_cases w name recs :
  In (name, recs) (platforms_in w) ->
  exists n url, recs = records_from w n url PROMPTS.
Proof.
  unfold platforms_in. simpl.
  intros [H|[H|[H|[]]]]; inversion H; eauto.
Qed.

(** ** The run, in closed form *)

Lemma load_previous_week_run w :
  load_previous_week w = (Ok (previous_doc w), w).
Proof.
  unfold load_previous_week, previous_doc.
  now destruct (rev (sorted_names _)).
Qed.

Lemma total_hits_bound w :
  0 <= count_total_hits (platforms_in w) <= Z.of_nat (List.length PROMPTS) * 3.
Proof.
  unfold count_total_hits.
  pose proof (filter_length_le r_mentioned
                (List.concat (map snd (platforms_in w)))) as H.
  unfold platforms_in in H at 2. cbn [map snd List.concat] in H.
  rewrite !length_app, !records_from_length in H. cbn [List.length] in H. lia.
Qed.

Lemma count_hits_records w n url :
  0 <= count_hits (records_from w n url PROMPTS)
  <= Z.of_nat (List.length PROMPTS).
Proof.
  pose proof (count_hits_bound (records_from w n url PROMPTS)) as H.
  now rewrite records_from_length in H.
Qed.

Lemma build_per_platform_run w :
  build_per_platform (platforms_in w) []
  = Ok (map (fun e => (fst e, stats_of (snd e))) (platforms_in w)).
Proof.
  unfold platforms_in, build_per_platform, rbind.
  rewrite !pct_of_platform by apply count_hits_records.
  reflexivity.
Qed.

Lemma date_today_run w : date_today w = (Ok (today w (clock w)), tick w).
Proof. reflexivity. Qed.

Lemma save_results_run r w :
  save_results r w
  = (Ok (snapshot_path w),
     mkWorld (today w) (S (clock w)) (api w) (sent w) (webhook w)
       (PyDict.set (snapshot_path w) (results_to_json r) (data_dir w))).
Proof. reflexivity. Qed.

Lemma platforms_in_unfold w :
  platforms_in w
  = [ ("chatgpt",
        records_from w (sent w) "https://api.openai.com/v1/chat/completions" PROMPTS);
      ("claude",
        records_from w (sent w + List.length PROMPTS)
          "https://api.anthropic.com/v1/messages" PROMPTS);
      ("gemini",
        records_from w (sent w + (List.length PROMPTS + List.length PROMPTS))
          "https://generativelanguage.googleapis.com/v1beta/models/gemini-2.0-flash:generateContent"
          PROMPTS) ].
Proof. reflexivity. Qed.

Lemma sent_tick w : sent (tick w) = sent w.
Proof. reflexivity. Qed.

Lemma platforms_in_tick w : platforms_in (tick w) = platforms_in w.
Proof.
  rewrite !platforms_in_unfold, sent_tick.
  now rewrite !(records_from_api w (tick w)) by reflexivity.
Qed.

Lemma replies_are_text_tick w : replies_are_text (tick w) = replies_are_text w.
Proof.
  rewrite !replies_are_text_split, sent_tick.
  now rewrite !(all_text_api w (tick w)) by reflexivity.
Qed.

Lemma previous_doc_dir w w' :
  data_dir w' = data_dir w -> previous_doc w' = previous_doc w.
Proof. unfold previous_doc. now intros ->. Qed.

(** The run when every reply is a text or an exception. *)
Theorem run_tracker_run w :
  replies_are_text w = true ->
  run_tracker w =
  match compute_wow_delta (previous_doc w)
          (count_total_hits (platforms_in w))
          (Z.of_nat (List.length PROMPTS) * 3) with
  | Ok wow => (Ok (results_in w wow), saved w (results_in w wow))
  | Raise e => (Raise e, advance (3 * List.length PROMPTS) (tick w))
  end.
Proof.
  intros Htext. unfold run_tracker.
  unfold bind at 1. rewrite date_today_run.
  unfold bind at 1.
  rewrite query_platforms_run by (rewrite replies_are_text_tick; exact Htext).
  rewrite platforms_in_tick.
  unfold bind at 1, lift at 1. rewrite build_per_platform_run.
  unfold bind at 1. rewrite load_previous_week_run.
  rewrite (previous_doc_dir w (advance (3 * List.length PROMPTS) (tick w)))
    by reflexivity.
  unfold bind at 1, lift at 1.
  destruct (compute_wow_delta _ _ _) as [wow|e]; [|reflexivity].
  unfold bind at 1, lift at 1. rewrite pct_of_overall by apply total_hits_bound.
  unfold bind at 1. rewrite save_results_run.
  reflexivity.
Qed.

(** The run when some reply is not a text: it stops at that reply with
    [AttributeError], having read the clock once. *)
Lemma run_tracker_stop w :
  replies_are_text w = false ->
  run_tracker w
  = (Raise AttributeError, advance (requests_of_run w) (tick w)).
Proof.
  intros Htext.
  assert (Hr : requests_of_run (tick w) = requests_of_run w).
  { rewrite !requests_of_run_unfold, sent_tick.
    now rewrite !(all_text_api w (tick w)), !(requests_made_api w (tick w))
      by reflexivity. }
  rewrite <- replies_are_text_tick in Htext.
  unfold run_tracker.
  unfold bind at 1. rewrite date_today_run.
  unfold bind at 1. now rewrite (query_platforms_stop (tick w) Htext), Hr.
Qed.

(** A run that returns has met texts and exceptions only. *)
Lemma run_tracker_texts w r :
  fst (run_tracker w) = Ok r -> replies_are_text w = true.
Proof.
  intros Hrun. destruct (replies_are_text w) eqn:E; [reflexivity|].
  rewrite (run_tracker_stop w E) in Hrun. discriminate.
Qed.

Lemma run_tracker_inv w r :
  fst (run_tracker w) = Ok r ->
  exists wow,
    compute_wow_delta (previous_doc w) (count_total_hits (platforms_in w))
      (Z.of_nat (List.length PROMPTS) * 3) = Ok wow
    /\ r = results_in w wow.
Proof.
  intros Hrun. pose proof (run_tracker_texts w r Hrun) as Htext.
  rewrite (run_tracker_run w Htext) in Hrun.
  destruct (compute_wow_delta _ _ _) as [wow|e]; simpl in Hrun; [|discriminate].
  injection Hrun as <-. now exists wow.
Qed.

Lemma platforms_in_nth w k i name url c p :
  nth_error endpoints k = Some (name, url) ->
  nth_error PROMPTS i = Some (c, p) ->
  exists recs,
    nth_error (platforms_in w) k = Some (name, recs) /\
    nth_error recs i
    = Some (make_record c p (response_text (api w (request_no w k i) url p))).
Proof.
  intros Hk Hi. unfold request_no.
  destruct k as [|[|[|k]]]; simpl in Hk; inversion Hk; subst;
    try (destruct k; discriminate);
    eexists; (split; [reflexivity|]);
    rewrite (records_from_nth _ _ _ _ _ _ _ Hi); do 3 f_equal;
    f_equal; simpl; lia.
Qed.

Lemma make_record_error c p response :
  r_error (make_record c p response) = true ->
  r_mentioned (make_record c p response) = false.
Proof. unfold make_record; simpl. now intros ->. Qed.

Lemma startswith_take s p n :
  (String.length p <= n)%nat ->
  PyStr.startswith (PyStr.take n s) p = PyStr.startswith s p.
Proof.
  revert p n; induction s as [|sc s IH]; intros p n Hn.
  - reflexivity.
  - destruct p as [|pc p]; [reflexivity|].
    cbn [String.length] in Hn. cbn [PyStr.take].
    destruct (PyStr.is_continuation sc).
    + cbn [PyStr.startswith].
      destruct (Ascii.eqb sc pc); [apply IH; lia | reflexivity].
    + destruct n as [|n]; [lia|]. cbn [PyStr.startswith].
      destruct (Ascii.eqb sc pc); [apply IH; lia | reflexivity].
Qed.

(** C2. In the results of a run, a record whose error flag is set has
    [mentioned = false], whatever the response text was. *)
Theorem error_never_mentioned w r name recs rec :
  fst (run_tracker w) = Ok r ->
  In (name, recs) (platforms r) ->
  In rec recs ->
  r_error rec = true ->
  r_mentioned rec = false.
Proof.
  intros Hrun Hp Hr. apply run_tracker_inv in Hrun.
  destruct Hrun as (wow & _ & ->). simpl in Hp.
  apply platforms_in_cases in Hp. destruct Hp as (n & url & ->).
  apply records_from_in in Hr. destruct Hr as (c & p & resp & _ & ->).
  apply make_record_error.
Qed.

(** C9. The record of platform [k] for prompt [i] has its error flag set
    exactly when the text the query function returned starts with
    [ERROR]; the stored snippet shows the same prefix. So a reply that
    succeeded with a text starting with [ERROR] is recorded as an error
    and is not a mention, even when the text names the brand. *)
Theorem error_flag_iff_prefix w r k i name url c p :
  fst (run_tracker w) = Ok r ->
  nth_error endpoints k = Some (name, url) ->
  nth_error PROMPTS i = Some (c, p) ->
  exists recs rec,
    nth_error (platforms r) k = Some (name, recs) /\
    nth_error recs i = Some rec /\
    let response := response_text (api w (request_no w k i) url p) in
    (r_error rec = true <-> exists rest, response = "ERROR" ++ rest) /\
    (r_error rec = true <->
       exists rest, r_response_snippet rec = "ERROR" ++ rest) /\
    (forall text,
        api w (request_no w k i) url p = Answer text ->
        (exists rest, text = "ERROR" ++ rest) ->
        r_error rec = true /\ r_mentioned rec = false).
Proof.
  intros Hrun Hk Hi. apply run_tracker_inv in Hrun.
  destruct Hrun as (wow & _ & ->).
  destruct (platforms_in_nth w k i name url c p Hk Hi) as (recs & H1 & H2).
  exists recs, (make_record c p (response_text (api w (request_no w k i) url p))).
  split; [exact H1|]. split; [exact H2|]. cbv zeta.
  split; [|split].
  - unfold make_record; cbn [r_error]. apply startswith_spec.
  - unfold make_record; cbn [r_error r_response_snippet].
    rewrite <- startswith_spec, startswith_take; [tauto | simpl; lia].
  - intros text Ha Hpre. rewrite Ha. cbn [response_text].
    assert (He : r_error (make_record c p text) = true)
      by (unfold make_record; cbn [r_error]; now apply startswith_spec).
    split; [exact He | now apply make_record_error].
Qed.

(** C10. The platforms mapping of a run has the keys chatgpt, claude,
    gemini in this order; each list has one record per catalog prompt,
    25 of them, and their categories and prompts are those of the
    catalog in catalog order, whatever the queries returned. *)
Theorem platforms_follow_catalog w r :
  fst (run_tracker w) = Ok r ->
  PyDict.keys (platforms r) = ["chatgpt"; "claude"; "gemini"] /\
  forall name recs,
    In (name, recs) (platforms r) ->
    List.length recs = 25%nat /\
    map (fun rec => (r_category rec, r_prompt rec)) recs = PROMPTS /\
    forall i rec,
      nth_error recs i = Some rec ->
      nth_error PROMPTS i = Some (r_category rec, r_prompt rec).
Proof.
  intros Hrun. apply run_tracker_inv in Hrun.
  destruct Hrun as (wow & _ & ->). split; [reflexivity|].
  intros name recs Hp. simpl in Hp.
  apply platforms_in_cases in Hp. destruct Hp as (n & url & ->).
  split; [now rewrite records_from_length|].
  split; [apply records_from_prompts|].
  intros i rec Hi.
  rewrite <- (records_from_prompts w url PROMPTS n) at 1.
  now rewrite nth_error_map, Hi.
Qed.

(** C5. In the summary of a run, [total_queries] is prompts times
    platforms, the hit count lies in [0, total_queries], and
    [overall_pct] is [round(total_hits / total_queries * 100)]: the float
    computation of the code, which for every hit count in that range
    agrees with rounding the exact quotient to the nearest integer. *)
Theorem overall_pct_rounds w r :
  fst (run_tracker w) = Ok r ->
  let s := summary_of r in
  total_queries s = Z.of_nat (List.length PROMPTS) * 3 /\
  total_queries s = 75 /\
  0 <= total_hits s <= total_queries s /\
  pct_of (total_hits s) (total_queries s) = Ok (overall_pct s) /\
  overall_pct s
  = PyNum.round_half_even_quot (total_hits s * 100) (total_queries s) /\
  (forall hits, 0 <= hits <= total_queries s ->
                pct_of hits (total_queries s)
                = Ok (PyNum.round_half_even_quot (hits * 100) (total_queries s))).
Proof.
  intros Hrun. apply run_tracker_inv in Hrun.
  destruct Hrun as (wow & _ & ->). cbv zeta. simpl summary_of.
  cbn [total_queries total_hits overall_pct].
  split; [reflexivity|]. split; [reflexivity|].
  split; [apply total_hits_bound|].
  split; [apply pct_of_overall, total_hits_bound|].
  split; [reflexivity|].
  intros hits Hh. now apply pct_of_overall.
Qed.

(** ** The prompt map *)

Lemma mem_get_none {V} k (d : PyDict.t V) :
  PyDict.mem k d = false <-> PyDict.get k d = None.
Proof. unfold PyDict.mem. destruct (PyDict.get k d); split; congruence. Qed.

(** One step of the loop stores one entry under the record's prompt. *)
Lemma prompt_map_step_set pname pm r :
  prompt_map_step pname pm r
  = PyDict.set (r_prompt r)
      {| pi_category :=
           match PyDict.get (r_prompt r) pm with
           | Some info => pi_category info
           | None => r_category r
           end;
         pi_platforms :=
           (platforms_of (r_prompt r) pm
              ++ (if r_mentioned r then [pname] else []))%list |} pm.
Proof.
  unfold prompt_map_step, platforms_of, PyDict.mem.
  destruct (PyDict.get (r_prompt r) pm) as [info|] eqn:G; simpl.
  - rewrite G. destruct (r_mentioned r); [reflexivity|].
    rewrite app_nil_r. symmetry. apply set_get_id. now destruct info.
  - destruct (r_mentioned r); [|reflexivity].
    now rewrite get_set_same, set_set.
Qed.

Lemma prompt_map_step_keys pname pm r k :
  In k (PyDict.keys (prompt_map_step pname pm r))
  <-> In k (PyDict.keys pm) \/ k = r_prompt r.
Proof.
  rewrite prompt_map_step_set.
  destruct (PyDict.mem (r_prompt r) pm) eqn:M.
  - rewrite keys_set_mem by exact M. apply mem_true_iff in M.
    split; [auto | intros [H| ->]; auto].
  - rewrite keys_set_fresh by exact M. rewrite in_app_iff. simpl.
    split; [intros [H|[H|[]]]; auto | intros [H|H]; auto].
Qed.

Lemma prompt_map_step_nodup pname pm r :
  NoDup (PyDict.keys pm) -> NoDup (PyDict.keys (prompt_map_step pname pm r)).
Proof.
  intros Hnd. rewrite prompt_map_step_set.
  destruct (PyDict.mem (r_prompt r) pm) eqn:M.
  - now rewrite keys_set_mem by exact M.
  - rewrite keys_set_fresh by exact M.
    apply NoDup_app; [exact Hnd | repeat constructor; auto | ].
    intros k Hk [<-|[]]. apply mem_true_iff in Hk. congruence.
Qed.

Lemma prompt_map_step_platforms pname pm r k :
  platforms_of k (prompt_map_step pname pm r)
  = (platforms_of k pm
       ++ (if andb (String.eqb k (r_prompt r)) (r_mentioned r)
           then [pname] else []))%list.
Proof.
  rewrite prompt_map_step_set. unfold platforms_of at 1.
  destruct (String.eqb_spec k (r_prompt r)) as [->|Hne]; simpl.
  - now rewrite get_set_same.
  - rewrite get_set_other by congruence. fold (platforms_of k pm).
    now rewrite app_nil_r.
Qed.

Lemma fold_step_facts pname recs : forall pm,
  NoDup (PyDict.keys pm) ->
  let pm' := fold_left (prompt_map_step pname) recs pm in
  NoDup (PyDict.keys pm') /\
  (forall k, In k (PyDict.keys pm')
             <-> In k (PyDict.keys pm) \/ In k (map r_prompt recs)) /\
  (forall k, platforms_of k pm' <> []
             <-> platforms_of k pm <> [] \/ mentioned_in k recs).
Proof.
  induction recs as [|r recs IH]; intros pm Hnd; simpl.
  - split; [exact Hnd|]. split; intros k.
    + tauto.
    + split; [auto | intros [H|(rec & [] & _)]; exact H].
  - destruct (IH _ (prompt_map_step_nodup pname pm r Hnd)) as (N & K & P).
    split; [exact N|]. split; intros k.
    + rewrite K, prompt_map_step_keys. intuition.
    + rewrite P, prompt_map_step_platforms. unfold mentioned_in. split.
      * intros [H|(rec & Hin & Hk & Hm)].
        -- destruct (platforms_of k pm) eqn:E.
           ++ right. exists r. simpl in H.
              destruct (String.eqb_spec k (r_prompt r));
                destruct (r_mentioned r); simpl in H; try congruence.
              split; [now left | auto].
           ++ left. discriminate.
        -- right. exists rec. split; [now right | auto].
      * intros [H|(rec & [<-|Hin] & Hk & Hm)].
        -- left. destruct (platforms_of k pm); [congruence | discriminate].
        -- left. subst k. rewrite String.eqb_refl, Hm. simpl.
           destruct (platforms_of _ pm); discriminate.
        -- right. exists rec. auto.
Qed.

Lemma build_prompt_map_facts plats : forall pm,
  NoDup (PyDict.keys pm) ->
  let pm' :=
    fold_left
      (fun pm entry => fold_left (prompt_map_step (fst entry)) (snd entry) pm)
      plats pm in
  NoDup (PyDict.keys pm') /\
  (forall k, In k (PyDict.keys pm')
             <-> In k (PyDict.keys pm)
                 \/ exists e, In e plats /\ In k (map r_prompt (snd e))) /\
  (forall k, platforms_of k pm' <> []
             <-> platforms_of k pm <> []
                 \/ exists e, In e plats /\ mentioned_in k (snd e)).
Proof.
  induction plats as [|[pname recs] plats IH]; intros pm Hnd; simpl.
  - split; [exact Hnd|]. split; intros k.
    + split; [auto | intros [H|(e & [] & _)]; exact H].
    + split; [auto | intros [H|(e & [] & _)]; exact H].
  - destruct (fold_step_facts pname recs pm Hnd) as (N1 & K1 & P1).
    destruct (IH _ N1) as (N & K & P).
    split; [exact N|]. split; intros k.
    + rewrite K, K1. split.
      * intros [[H|H]|(e & He & Hk)]; auto.
        -- right. exists (pname, recs). auto.
        -- right. exists e. auto.
      * intros [H|(e & [<-|He] & Hk)]; auto.
        right. exists e. auto.
    + rewrite P, P1. split.
      * intros [[H|H]|(e & He & Hk)]; auto.
        -- right. exists (pname, recs). auto.
        -- right. exists e. auto.
      * intros [H|(e & [<-|He] & Hk)]; auto.
        right. exists e. auto.
Qed.

Lemma filter_keys_nodup {V} (f : string * V -> bool) (d : PyDict.t V) :
  NoDup (PyDict.keys d) -> NoDup (PyDict.keys (filter f d)).
Proof.
  unfold PyDict.keys. induction d as [|[k v] d IH]; simpl; intros Hnd.
  - constructor.
  - inversion Hnd as [|? ? Hn Hnd']; subst.
    destruct (f (k, v)); simpl; [constructor|]; auto.
    intros Hin. apply Hn. apply in_map_iff in Hin.
    destruct Hin as ([k' v'] & Hk & Hin). simpl in Hk; subst.
    apply filter_In in Hin. apply in_map_iff. exists (k, v'). tauto.
Qed.

Lemma filter_keys_in (f : string * prompt_info -> bool) (pm : PyDict.t prompt_info) k :
  NoDup (PyDict.keys pm) ->
  (In k (PyDict.keys (filter f pm))
   <-> exists info, PyDict.get k pm = Some info /\ f (k, info) = true).
Proof.
  intros Hnd. unfold PyDict.keys. rewrite in_map_iff. split.
  - intros ([k' info] & Hk & Hin). simpl in Hk; subst.
    apply filter_In in Hin. destruct Hin as [Hin Hf].
    exists info. split; [now apply in_get_nodup | exact Hf].
  - intros (info & Hg & Hf). exists (k, info). split; [reflexivity|].
    apply filter_In. split; [now apply get_some_in | exact Hf].
Qed.

Lemma winning_keys pm k :
  NoDup (PyDict.keys pm) ->
  (In k (PyDict.keys (filter is_winning pm))
   <-> In k (PyDict.keys pm) /\ platforms_of k pm <> []).
Proof.
  intros Hnd. rewrite filter_keys_in by exact Hnd.
  rewrite <- mem_true_iff. unfold PyDict.mem, platforms_of, is_winning.
  destruct (PyDict.get k pm) as [info|]; simpl.
  - split.
    + intros (i & [= <-] & H). split; [reflexivity|].
      destruct (pi_platforms info); [discriminate | discriminate].
    + intros [_ H]. exists info. split; [reflexivity|].
      destruct (pi_platforms info); [congruence | reflexivity].
  - split; [intros (i & H & _); discriminate | intros [H _]; discriminate].
Qed.

Lemma gap_keys pm k :
  NoDup (PyDict.keys pm) ->
  (In k (PyDict.keys (filter (fun kv => negb (is_winning kv)) pm))
   <-> In k (PyDict.keys pm) /\ platforms_of k pm = []).
Proof.
  intros Hnd. rewrite filter_keys_in by exact Hnd.
  rewrite <- mem_true_iff. unfold PyDict.mem, platforms_of, is_winning.
  destruct (PyDict.get k pm) as [info|]; simpl.
  - split.
    + intros (i & [= <-] & H). split; [reflexivity|].
      destruct (pi_platforms info); [reflexivity | discriminate].
    + intros [_ H]. exists info. split; [reflexivity|]. now rewrite H.
  - split; [intros (i & H & _); discriminate | intros [H _]; discriminate].
Qed.

Lemma records_from_prompt_texts w url prompts n :
  map r_prompt (records_from w n url prompts) = map snd prompts.
Proof.
  rewrite <- (records_from_prompts w url prompts n) at 2.
  now rewrite map_map.
Qed.

Lemma prompt_map_in_run w :
  let pm := build_prompt_map (platforms_in w) in
  NoDup (PyDict.keys pm) /\
  (forall k, In k (PyDict.keys pm) <-> In k (map snd PROMPTS)) /\
  (forall k, platforms_of k pm <> []
             <-> exists name recs,
                   In (name, recs) (platforms_in w) /\ mentioned_in k recs).
Proof.
  destruct (build_prompt_map_facts (platforms_in w) [] (NoDup_nil _))
    as (N & K & P).
  split; [exact N|]. split; intros k.
  - unfold build_prompt_map. rewrite K. split.
    + intros [[]|([name recs] & He & Hk)].
      destruct (platforms_in_cases _ _ _ He) as (n & url & ->).
      cbn [snd] in Hk. now rewrite records_from_prompt_texts in Hk.
    + intros Hk. right. eexists. split; [left; reflexivity|].
      cbn [snd]. now rewrite records_from_prompt_texts.
  - unfold build_prompt_map. rewrite P. split.
    + intros [H|([name recs] & He & Hk)]; [now elim H|].
      exists name, recs. auto.
    + intros (name & recs & He & Hk). right. exists (name, recs). auto.
Qed.

(** C3. In the summary of a run, the keys of [winning_prompts] and of
    [gap_prompts] are without repetition, no prompt is a key of both,
    the prompts of the catalog are exactly the keys of one or the other,
    a prompt is winning exactly when some platform's record for it has
    [mentioned = true], and a gap exactly when none has. *)
Theorem winning_gap_partition w r :
  fst (run_tracker w) = Ok r ->
  let s := summary_of r in
  let prompts := map snd PROMPTS in
  let mentioned_somewhere k :=
    exists name recs rec,
      In (name, recs) (platforms r) /\ In rec recs /\
      r_prompt rec = k /\ r_mentioned rec = true in
  NoDup (PyDict.keys (winning_prompts s)) /\
  NoDup (PyDict.keys (gap_prompts s)) /\
  (forall k, In k prompts
             <-> In k (PyDict.keys (winning_prompts s))
                 \/ In k (PyDict.keys (gap_prompts s))) /\
  (forall k, ~ (In k (PyDict.keys (winning_prompts s))
                /\ In k (PyDict.keys (gap_prompts s)))) /\
  (forall k, In k (PyDict.keys (winning_prompts s))
             <-> In k prompts /\ mentioned_somewhere k) /\
  (forall k, In k (PyDict.keys (gap_prompts s))
             <-> In k prompts /\ ~ mentioned_somewhere k).
Proof.
  intros Hrun. apply run_tracker_inv in Hrun.
  destruct Hrun as (wow & _ & ->). cbv zeta.
  cbn [summary_of results_in winning_prompts gap_prompts platforms].
  destruct (prompt_map_in_run w) as (N & K & P).
  set (pm := build_prompt_map (platforms_in w)) in *.
  assert (M : forall k,
    (exists name recs rec,
        In (name, recs) (platforms_in w) /\ In rec recs /\
        r_prompt rec = k /\ r_mentioned rec = true)
    <-> platforms_of k pm <> []).
  { intros k. rewrite P. unfold mentioned_in. split.
    - intros (name & recs & rec & H1 & H2 & H3 & H4).
      exists name, recs. split; [exact H1|]. exists rec. auto.
    - intros (name & recs & H1 & rec & H2 & H3 & H4).
      exists name, recs, rec. auto. }
  split; [now apply filter_keys_nodup|].
  split; [now apply filter_keys_nodup|].
  split; [|split; [|split]]; intros k.
  - rewrite winning_keys, gap_keys, K by exact N.
    destruct (platforms_of k pm) eqn:E; split; intros H.
    + right. auto.
    + destruct H as [[H _]|[H _]]; exact H.
    + left. split; [exact H | discriminate].
    + destruct H as [[H _]|[H _]]; exact H.
  - rewrite winning_keys, gap_keys by exact N. intros [[_ H1] [_ H2]]. auto.
  - rewrite winning_keys, K, M by exact N. tauto.
  - rewrite gap_keys, K, M by exact N.
    destruct (platforms_of k pm); split; intros [H1 H2];
      (split; [exact H1|]);
      first [ congruence | intros H; now apply H | elim H2; discriminate ].
Qed.

(** ** The latest snapshot *)

Lemma ascii_compare_eq x y : Ascii.compare x y = Eq -> x = y.
Proof. apply Ascii.compare_eq_iff. Qed.

Lemma ascii_compare_refl x : Ascii.compare x x = Eq.
Proof. unfold Ascii.compare. apply N.compare_refl. Qed.

Lemma ascii_compare_lt_trans x y z :
  Ascii.compare x y = Lt -> Ascii.compare y z = Lt -> Ascii.compare x z = Lt.
Proof.
  unfold Ascii.compare. rewrite !N.compare_lt_iff. apply N.lt_trans.
Qed.

Lemma string_compare_trans a : forall b c,
  String.compare a b <> Gt -> String.compare b c <> Gt ->
  String.compare a c <> Gt.
Proof.
  induction a as [|x a IH]; intros [|y b] [|z c]; simpl; try congruence.
  destruct (Ascii.compare x y) eqn:Exy; try congruence;
    destruct (Ascii.compare y z) eqn:Eyz; try congruence; intros Hab Hbc.
  - apply ascii_compare_eq in Exy, Eyz. subst.
    rewrite ascii_compare_refl. now apply (IH b c).
  - apply ascii_compare_eq in Exy. subst. now rewrite Eyz.
  - apply ascii_compare_eq in Eyz. subst. now rewrite Exy.
  - now rewrite (ascii_compare_lt_trans x y z Exy Eyz).
Qed.

Lemma leb_trans a b c :
  String.leb a b = true -> String.leb b c = true -> String.leb a c = true.
Proof.
  unfold String.leb. intros Hab Hbc.
  pose proof (string_compare_trans a b c) as H.
  destruct (String.compare a b); try discriminate;
    destruct (String.compare b c); try discriminate;
    destruct (String.compare a c); try reflexivity;
    exfalso; apply H; congruence.
Qed.

Lemma leb_refl a : String.leb a a = true.
Proof. now destruct (String.leb_total a a). Qed.

Lemma insert_name_in x l y : In y (insert_name x l) <-> y = x \/ In y l.
Proof.
  induction l as [|z l IH]; simpl.
  - intuition.
  - destruct (String.leb (fst x) (fst z)); simpl; [intuition|].
    rewrite IH. intuition.
Qed.

Lemma insert_name_sorted x l :
  StronglySorted name_le l -> StronglySorted name_le (insert_name x l).
Proof.
  induction l as [|z l IH]; simpl; intros Hs.
  - repeat constructor.
  - inversion Hs as [|? ? Hs' Hall]; subst.
    destruct (String.leb (fst x) (fst z)) eqn:E.
    + constructor; [exact Hs|]. constructor; [exact E|].
      eapply Forall_impl; [|exact Hall]. intros y Hy.
      unfold name_le in *. now apply (leb_trans _ (fst z)).
    + constructor; [now apply IH|]. apply Forall_forall. intros y Hy.
      apply insert_name_in in Hy. destruct Hy as [->|Hy].
      * unfold name_le. destruct (String.leb_total (fst x) (fst z)); congruence.
      * rewrite Forall_forall in Hall. now apply Hall.
Qed.

Lemma sorted_names_in l y : In y (sorted_names l) <-> In y l.
Proof.
  induction l as [|x l IH]; simpl; [tauto|].
  rewrite insert_name_in, IH. intuition.
Qed.

Lemma sorted_names_sorted l : StronglySorted name_le (sorted_names l).
Proof.
  induction l as [|x l IH]; simpl; [constructor | now apply insert_name_sorted].
Qed.

Lemma sorted_last_max l : StronglySorted name_le l ->
  forall x l', rev l = x :: l' ->
  In x l /\ forall y, In y l -> name_le y x.
Proof.
  induction 1 as [|a l Hs IH Hall]; intros x l' Hrev; [discriminate|].
  simpl in Hrev. destruct (rev l) as [|x0 l0] eqn:E.
  - simpl in Hrev. inversion Hrev; subst.
    assert (l = []) by (rewrite <- (rev_involutive l), E; reflexivity).
    subst. split; [now left|]. intros y [<-|[]]. apply leb_refl.
  - simpl in Hrev. inversion Hrev; subst.
    destruct (IH x l0 eq_refl) as [Hin Hmax].
    split; [now right|]. intros y [<-|Hy]; [|now apply Hmax].
    rewrite Forall_forall in Hall. now apply Hall.
Qed.

Lemma previous_doc_none w :
  previous_doc w = None
  <-> forall name doc, In (name, doc) (data_dir w) -> glob_week name = false.
Proof.
  unfold previous_doc.
  set (files := filter (fun f => glob_week (fst f)) (data_dir w)).
  destruct (rev (sorted_names files)) as [|x l] eqn:E.
  - split; [intros _|reflexivity]. intros name doc Hin.
    destruct (glob_week name) eqn:G; [|reflexivity].
    assert (Hf : In (name, doc) (sorted_names files))
      by (apply sorted_names_in, filter_In; auto).
    rewrite <- (rev_involutive (sorted_names files)), E in Hf. destruct Hf.
  - split; [discriminate|]. intros H. exfalso.
    destruct (sorted_last_max _ (sorted_names_sorted files) _ _ E) as [Hin _].
    apply sorted_names_in, filter_In in Hin. destruct x as [name doc].
    destruct Hin as [Hin G]. simpl in G. rewrite (H _ _ Hin) in G. discriminate.
Qed.

Lemma previous_doc_some w doc :
  previous_doc w = Some doc ->
  exists latest,
    In (latest, doc) (data_dir w) /\ glob_week latest = true /\
    forall name doc', In (name, doc') (data_dir w) -> glob_week name = true ->
                      String.leb name latest = true.
Proof.
  unfold previous_doc.
  set (files := filter (fun f => glob_week (fst f)) (data_dir w)).
  destruct (rev (sorted_names files)) as [|[latest d] l] eqn:E; [discriminate|].
  simpl. intros [= ->].
  destruct (sorted_last_max _ (sorted_names_sorted files) _ _ E) as [Hin Hmax].
  apply sorted_names_in, filter_In in Hin. destruct Hin as [Hin G].
  exists latest. split; [exact Hin|]. split; [exact G|].
  intros name doc' Hn Hg.
  apply (Hmax (name, doc')). apply sorted_names_in, filter_In. auto.
Qed.

(** The delta against a snapshot written by [save_results]. *)
Lemma compute_wow_delta_snapshot r0 hits queries :
  compute_wow_delta (Some (results_to_json r0)) hits queries
  = (cur <~ pct_of hits queries ;;
     Ok (Some (cur - overall_pct (summary_of r0)))).
Proof. reflexivity. Qed.

Lemma rbind_ok {A B} (a : A) (k : A -> result B) : rbind (Ok a) k = k a.
Proof. reflexivity. Qed.

Lemma results_in_wow w wow : wow_delta (summary_of (results_in w wow)) = wow.
Proof. reflexivity. Qed.

Lemma results_in_pct w wow :
  overall_pct (summary_of (results_in w wow))
  = PyNum.round_half_even_quot (count_total_hits (platforms_in w) * 100)
      (Z.of_nat (List.length PROMPTS) * 3).
Proof. reflexivity. Qed.

(** The delta of a run over a directory of snapshots. *)
Lemma compute_wow_delta_persisted w :
  persisted w ->
  (previous_doc w = None /\
   compute_wow_delta (previous_doc w) (count_total_hits (platforms_in w))
     (Z.of_nat (List.length PROMPTS) * 3) = Ok None)
  \/
  (exists latest r0,
     previous_doc w = Some (results_to_json r0) /\
     In (latest, results_to_json r0) (data_dir w) /\
     glob_week latest = true /\
     (forall name doc, In (name, doc) (data_dir w) -> glob_week name = true ->
                       String.leb name latest = true) /\
     compute_wow_delta (previous_doc w) (count_total_hits (platforms_in w))
       (Z.of_nat (List.length PROMPTS) * 3)
     = Ok (Some (PyNum.round_half_even_quot
                   (count_total_hits (platforms_in w) * 100)
                   (Z.of_nat (List.length PROMPTS) * 3)
                 - overall_pct (summary_of r0)))).
Proof.
  intros Hp. destruct (previous_doc w) as [doc|] eqn:E.
  - right. destruct (previous_doc_some w doc E) as (latest & Hin & G & Hmax).
    destruct (Hp _ _ Hin G) as (r0 & ->).
    exists latest, r0. split; [reflexivity|]. split; [exact Hin|].
    split; [exact G|]. split; [exact Hmax|].
    rewrite compute_wow_delta_snapshot.
    rewrite pct_of_overall by apply total_hits_bound.
    now rewrite rbind_ok.
  - left. split; reflexivity.
Qed.

(** C4. When the week files of the data directory are snapshots written
    by earlier runs, a run whose replies are all texts or exceptions
    returns; and whenever a run returns, its [wow_delta] is null exactly
    when there is no week file, and otherwise it is the current
    [overall_pct] minus the [overall_pct] stored in the week file whose
    name is the greatest in lexicographic order, which is the file
    [load_previous_week] reads. *)
Theorem wow_delta_against_latest w :
  persisted w ->
  (replies_are_text w = true -> exists r, fst (run_tracker w) = Ok r) /\
  forall r,
    fst (run_tracker w) = Ok r ->
    (wow_delta (summary_of r) = None
     <-> forall name doc, In (name, doc) (data_dir w) -> glob_week name = false) /\
    (forall name doc,
        In (name, doc) (data_dir w) -> glob_week name = true ->
        exists latest r0,
          In (latest, results_to_json r0) (data_dir w) /\
          glob_week latest = true /\
          (forall name' doc', In (name', doc') (data_dir w) ->
                              glob_week name' = true ->
                              String.leb name' latest = true) /\
          load_previous_week w = (Ok (Some (results_to_json r0)), w) /\
          wow_delta (summary_of r)
          = Some (overall_pct (summary_of r) - overall_pct (summary_of r0))).
Proof.
  intros Hp. split.
  - intros Htext. rewrite (run_tracker_run w Htext).
    destruct (compute_wow_delta_persisted w Hp)
      as [[_ Hw]|(latest & r0 & _ & _ & _ & _ & Hw)]; rewrite Hw;
      eexists; reflexivity.
  - intros r Hrun. apply run_tracker_inv in Hrun.
    destruct Hrun as (wow & Hw & ->).
    rewrite results_in_wow, results_in_pct, load_previous_week_run.
    destruct (compute_wow_delta_persisted w Hp)
      as [[E Hw']|(latest & r0 & E & Hin & G & Hmax & Hw')];
      rewrite Hw' in Hw; injection Hw as <-.
    + pose proof (proj1 (previous_doc_none w) E) as Hnone.
      split; [tauto|].
      intros name doc Hin G. rewrite (Hnone _ _ Hin) in G. discriminate.
    + split.
      * split; [discriminate|].
        intros H. rewrite (H _ _ Hin) in G. discriminate.
      * intros _ _ _ _. exists latest, r0. rewrite E. auto.
Qed.

(** ** Delivery *)

(** C6. When the webhook answers the POST with a status code, delivery
    returns normally exactly for status 200 and raises [SystemExit(1)]
    for any other status; the process that ran the tracker, formatted
    the report and posted it exits with code zero in the first case and
    with a non-zero code in the second. *)
Theorem slack_success_iff_200 message w status text :
  webhook w message = Responded status text ->
  (status = 200 -> send_to_slack message w = (Ok tt, w)) /\
  (status <> 200 -> send_to_slack message w = (Raise (SystemExit 1), w)) /\
  (fst (send_to_slack message w) = Ok tt <-> status = 200) /\
  (forall w0 res,
      run_tracker w0 = (Ok res, w) ->
      format_slack_message res = Ok message ->
      (exit_code (fst (main w0)) = 0 <-> status = 200) /\
      (status <> 200 -> exit_code (fst (main w0)) = 1)).
Proof.
  intros Hw.
  assert (H200 : status = 200 -> send_to_slack message w = (Ok tt, w)).
  { intros ->. unfold send_to_slack. now rewrite Hw. }
  assert (Hne : status <> 200 ->
                send_to_slack message w = (Raise (SystemExit 1), w)).
  { intros Hs. unfold send_to_slack. rewrite Hw.
    destruct (Z.eqb_spec status 200); [contradiction | reflexivity]. }
  split; [exact H200|]. split; [exact Hne|]. split.
  - split.
    + intros H. destruct (Z.eq_dec status 200) as [->|Hs]; [reflexivity|].
      rewrite (Hne Hs) in H. discriminate.
    + intros Hs. now rewrite (H200 Hs).
  - intros w0 res Hrun Hfmt.
    assert (Hmain : main w0 = send_to_slack message w).
    { unfold main. unfold bind at 1. rewrite Hrun.
      unfold bind at 1, lift. now rewrite Hfmt. }
    rewrite Hmain. split.
    + split.
      * intros H. destruct (Z.eq_dec status 200) as [->|Hs]; [reflexivity|].
        rewrite (Hne Hs) in H. discriminate.
      * intros Hs. now rewrite (H200 Hs).
    + intros Hs. now rewrite (Hne Hs).
Qed.

(** ** The report *)

Lemma str_app_assoc (a b c : string) : (a ++ b) ++ c = a ++ (b ++ c).
Proof. induction a as [|x a IH]; simpl; [reflexivity | now rewrite IH]. Qed.

Lemma format_lines_shape r lines :
  format_lines r = Ok lines ->
  exists plines,
    platform_lines (per_platform (summary_of r)) = Ok plines /\
    lines
    = ([ title_line (week r);
         "━━━━━━━━━━━━━━━━━━━━━━━━━━━━━━";
         overall_line (summary_of r);
         "";
         "*By Platform:*" ]
       ++ plines
       ++ winning_section (winning_prompts (summary_of r))
       ++ gap_section (gap_prompts (summary_of r))
       ++ [ "";
            "_Platforms: ChatGPT · Claude · Gemini · 25 prompts each · 75 total queries_" ])%list.
Proof.
  unfold format_lines, rbind.
  destruct (platform_lines (per_platform (summary_of r))) as [plines|e];
    [|discriminate].
  intros [= <-]. now exists plines.
Qed.

(** C7. The header line of the report, its third line, ends with an
    indicator that depends on [wow_delta] alone: the baseline text for
    [None], the up arrow for a positive delta, the down arrow for a
    negative one, the flat arrow for zero; so for 5, -3, 0 and [None]. *)
Theorem delta_indicator_by_sign r lines :
  format_lines r = Ok lines ->
  let wow := wow_delta (summary_of r) in
  (exists prefix, nth_error lines 2 = Some (prefix ++ delta_str wow)) /\
  (wow = None -> delta_str wow = "_baseline week — tracking starts now_") /\
  (forall d, wow = Some d -> 0 < d ->
             delta_str wow = "↑ +" ++ PyStr.of_int d ++ "% vs last week 🟢") /\
  (forall d, wow = Some d -> d < 0 ->
             delta_str wow = "↓ " ++ PyStr.of_int d ++ "% vs last week 🔴") /\
  (wow = Some 0 -> delta_str wow = "→ flat vs last week 🟡") /\
  delta_str (Some 5) = "↑ +5% vs last week 🟢" /\
  delta_str (Some (-3)) = "↓ -3% vs last week 🔴" /\
  delta_str (Some 0) = "→ flat vs last week 🟡" /\
  delta_str None = "_baseline week — tracking starts now_".
Proof.
  intros Hfmt. cbv zeta.
  destruct (format_lines_shape r lines Hfmt) as (plines & _ & ->).
  split.
  - exists ("*Overall: " ++ PyStr.of_int (total_hits (summary_of r)) ++ "/"
              ++ PyStr.of_int (total_queries (summary_of r)) ++ " prompts ("
              ++ PyStr.of_int (overall_pct (summary_of r)) ++ "%)* — ").
    cbn [app nth_error]. unfold overall_line.
    now rewrite !str_app_assoc.
  - split; [now intros ->|].
    split; [intros d -> Hd; unfold delta_str;
            destruct (Z.ltb_spec 0 d); [reflexivity | lia] |].
    split; [intros d -> Hd; unfold delta_str;
            destruct (Z.ltb_spec 0 d); [lia|];
            destruct (Z.ltb_spec d 0); [reflexivity | lia] |].
    split; [now intros ->|].
    repeat split; reflexivity.
Qed.

(** ** The gap listing *)

Lemma insert_by_key_perm x l : Permutation (insert_by_key x l) (x :: l).
Proof.
  induction l as [|y l IH]; simpl; [reflexivity|].
  destruct (priority_key x <=? priority_key y); [reflexivity|].
  rewrite IH. apply perm_swap.
Qed.

Lemma insert_by_key_sorted x l :
  StronglySorted key_le l -> StronglySorted key_le (insert_by_key x l).
Proof.
  induction l as [|y l IH]; simpl; intros Hs.
  - repeat constructor.
  - inversion Hs as [|? ? Hs' Hall]; subst.
    destruct (Z.leb_spec (priority_key x) (priority_key y)) as [Hle|Hgt].
    + constructor; [exact Hs|]. constructor; [exact Hle|].
      eapply Forall_impl; [|exact Hall]. unfold key_le. intros z Hz. lia.
    + constructor; [now apply IH|].
      apply (Permutation_Forall (Permutation_sym (insert_by_key_perm x l))).
      constructor; [unfold key_le; lia | exact Hall].
Qed.

Lemma sorted_by_priority_perm l : Permutation (sorted_by_priority l) l.
Proof.
  induction l as [|x l IH]; simpl; [reflexivity|].
  rewrite insert_by_key_perm. now constructor.
Qed.

Lemma sorted_by_priority_sorted l : StronglySorted key_le (sorted_by_priority l).
Proof.
  induction l as [|x l IH]; simpl; [constructor | now apply insert_by_key_sorted].
Qed.

Lemma index_of_some c l : forall i,
  index_of c l = Some i -> nth_error l i = Some c /\ (i < List.length l)%nat.
Proof.
  induction l as [|x l IH]; simpl; intros i; [discriminate|].
  destruct (String.eqb_spec x c) as [->|Hne].
  - intros [= <-]. split; [reflexivity | simpl; lia].
  - destruct (index_of c l) as [j|]; [|discriminate].
    intros [= <-]. destruct (IH j eq_refl). split; [assumption | simpl; lia].
Qed.

Lemma index_of_none c l : index_of c l = None <-> ~ In c l.
Proof.
  induction l as [|x l IH]; simpl; [tauto|].
  destruct (String.eqb_spec x c) as [->|Hne].
  - split; [discriminate | intros H; elim H; now left].
  - destruct (index_of c l) as [j|].
    + split; [discriminate|]. intros H. exfalso. apply H. right.
      destruct (In_dec string_dec c l) as [Hin|Hn]; [exact Hin|].
      apply IH in Hn. discriminate.
    + split; [|reflexivity]. intros _ [H|H]; [congruence|].
      now apply (proj1 IH).
Qed.

Lemma nth_error_firstn_lt {A} (l : list A) n i :
  (i < n)%nat -> nth_error (firstn n l) i = nth_error l i.
Proof.
  revert l i; induction n as [|n IH]; intros l i Hi; [lia|].
  destruct l as [|x l]; [reflexivity|].
  destruct i as [|i]; [reflexivity|]. cbn [firstn nth_error].
  apply IH. lia.
Qed.

Lemma nth_error_skip2 {A} (x y : A) l i :
  nth_error ((x :: y :: nil) ++ l) (2 + i) = nth_error l i.
Proof. reflexivity. Qed.

(** C8. The report lists the gap prompts in the order of [sorted] by
    the priority key: the position of the category in the five-entry
    priority list, 99 for any other category, so unknown categories come
    last. At most six are listed, each on a line that shows the first 72
    characters of the prompt and its category; when there are more than
    six, one further line follows them, which reads "...and N more" and
    gives the number N of gap prompts left out. *)
Theorem gap_listing_sorted_capped r lines :
  format_lines r = Ok lines ->
  let gaps := gap_prompts (summary_of r) in
  let gaps_sorted := sorted_by_priority gaps in
  let n := Z.of_nat (List.length gaps) in
  (exists pre post, lines = (pre ++ gap_section gaps ++ post)%list) /\
  gap_section gaps
  = ([""; gap_header n]
     ++ map gap_line (firstn 6 gaps_sorted)
     ++ (if 6 <? n then [more_line (n - 6)] else []))%list /\
  Permutation gaps_sorted gaps /\
  StronglySorted key_le gaps_sorted /\
  priority
  = ["Public Safety"; "Energy/Utility"; "Mobile/Transit"; "Partner Channel";
     "Competitive"] /\
  (forall kv, In (pi_category (snd kv)) priority ->
              0 <= priority_key kv < 5 /\
              nth_error priority (Z.to_nat (priority_key kv))
              = Some (pi_category (snd kv))) /\
  (forall kv, ~ In (pi_category (snd kv)) priority -> priority_key kv = 99) /\
  (forall k, more_line k = "  _...and " ++ PyStr.of_int k ++ " more_") /\
  (List.length (firstn 6 gaps_sorted) <= 6)%nat /\
  (n <= 6 -> firstn 6 gaps_sorted = gaps_sorted) /\
  (6 < n -> Z.of_nat (List.length (skipn 6 gaps_sorted)) = n - 6) /\
  (forall k,
      gap_header k
      = "*❌ Visibility Gaps — " ++ PyStr.of_int k
          ++ " prompts with no mention:*") /\
  (forall prompt info,
      gap_line (prompt, info)
      = "  • _" ++ PyStr.take 72 prompt ++ "_ (" ++ pi_category info ++ ")") /\
  (forall i prompt info,
      (i < 6)%nat ->
      nth_error gaps_sorted i = Some (prompt, info) ->
      nth_error (gap_section gaps) (2 + i)
      = Some ("  • _" ++ PyStr.take 72 prompt ++ "_ ("
                ++ pi_category info ++ ")")) /\
  (n <= 6 -> List.length (gap_section gaps) = (2 + List.length gaps)%nat) /\
  (6 < n ->
   List.length (gap_section gaps) = 9%nat /\
   nth_error (gap_section gaps) 8
   = Some ("  _...and " ++ PyStr.of_int (n - 6) ++ " more_")).
Proof.
  intros Hfmt. cbv zeta.
  destruct (format_lines_shape r lines Hfmt) as (plines & _ & ->).
  set (gaps := gap_prompts (summary_of r)).
  assert (Hlen : List.length (sorted_by_priority gaps) = List.length gaps)
    by apply Permutation_length, sorted_by_priority_perm.
  assert (Hsec : gap_section gaps
    = ([""; gap_header (Z.of_nat (List.length gaps))]
       ++ map gap_line (firstn 6 (sorted_by_priority gaps))
       ++ (if 6 <? Z.of_nat (List.length gaps)
           then [more_line (Z.of_nat (List.length gaps) - 6)] else []))%list)
    by (unfold gap_section; now rewrite Hlen).
  split.
  { exists ([ title_line (week r);
              "━━━━━━━━━━━━━━━━━━━━━━━━━━━━━━";
              overall_line (summary_of r);
              "";
              "*By Platform:*" ]
            ++ plines ++ winning_section (winning_prompts (summary_of r)))%list.
    eexists. rewrite <- !app_assoc. reflexivity. }
  split; [exact Hsec|].
  split; [apply sorted_by_priority_perm|].
  split; [apply sorted_by_priority_sorted|].
  split; [reflexivity|].
  split.
  { intros kv Hin. unfold priority_key.
    destruct (index_of (pi_category (snd kv)) priority) as [i|] eqn:E.
    - destruct (index_of_some _ _ _ E) as [Hnth Hlt].
      change (List.length priority) with 5%nat in Hlt.
      rewrite Nat2Z.id. split; [lia | exact Hnth].
    - apply index_of_none in E. contradiction. }
  split.
  { intros kv Hn. unfold priority_key.
    apply index_of_none in Hn. now rewrite Hn. }
  split; [reflexivity|].
  split; [apply firstn_le_length|].
  split; [intros Hn; apply firstn_all2; lia|].
  split; [intros Hn; rewrite length_skipn; lia|].
  split; [reflexivity|]. split; [reflexivity|].
  split.
  { intros i prompt info Hi Hnth. rewrite Hsec.
    rewrite nth_error_skip2.
    assert (Hl : (i < List.length (map gap_line
                                     (firstn 6 (sorted_by_priority gaps))))%nat).
    { rewrite length_map, length_firstn.
      assert (i < List.length (sorted_by_priority gaps))%nat
        by (apply nth_error_Some; congruence).
      lia. }
    rewrite nth_error_app1 by exact Hl.
    rewrite nth_error_map, nth_error_firstn_lt by exact Hi.
    now rewrite Hnth. }
  split.
  { intros Hn. rewrite Hsec.
    destruct (Z.ltb_spec 6 (Z.of_nat (List.length gaps))); [lia|].
    rewrite !length_app, length_map, length_firstn, Hlen. cbn [List.length].
    lia. }
  intros Hn. rewrite Hsec.
  destruct (Z.ltb_spec 6 (Z.of_nat (List.length gaps))); [|lia].
  assert (Hm : List.length (map gap_line (firstn 6 (sorted_by_priority gaps)))
               = 6%nat)
    by (rewrite length_map, length_firstn, Hlen; lia).
  split.
  - rewrite !length_app, Hm. reflexivity.
  - change 8%nat with (2 + 6)%nat. rewrite nth_error_skip2.
    rewrite nth_error_app2 by lia. rewrite Hm. reflexivity.
Qed.

Lemma in_by_eqb (x : string) l : existsb (String.eqb x) l = true -> In x l.
Proof.
  intros H. apply existsb_exists in H. destruct H as (y & Hy & E).
  apply String.eqb_eq in E. now subst.
Qed.

(** The line for the gap prompts left out carries no plus sign: with 23
    gap prompts the report says "...and 17 more", and no line of it
    contains "+17 more" or any "+". *)
Lemma gap_suffix_has_no_plus :
  format_lines Sample.result = Ok Sample.report_lines /\
  List.length (gap_prompts (summary_of Sample.result)) = 23%nat /\
  nth_error (gap_section (gap_prompts (summary_of Sample.result))) 8
  = Some "  _...and 17 more_" /\
  In "  _...and 17 more_" Sample.report_lines /\
  existsb (fun line => PyStr.contains line "+17 more") Sample.report_lines
  = false /\
  existsb (fun line => PyStr.contains line "+") Sample.report_lines = false.
Proof.
  split; [vm_compute; reflexivity|].
  split; [vm_compute; reflexivity|].
  split; [vm_compute; reflexivity|].
  split; [|split; vm_compute; reflexivity].
  apply in_by_eqb. vm_compute. reflexivity.
Qed.

(** ** Worked instances on the sample worlds *)

Lemma error_never_mentioned_sample :
  r_mentioned Sample.timeout_record = false.
Proof.
  apply (error_never_mentioned Sample.world Sample.result "chatgpt"
           Sample.chatgpt_records Sample.timeout_record).
  - vm_compute. reflexivity.
  - left. reflexivity.
  - right. left. reflexivity.
  - vm_compute. reflexivity.
Defined.

Lemma error_flag_iff_prefix_sample :
  exists recs rec,
    nth_error (platforms Sample.result) 0 = Some ("chatgpt", recs) /\
    nth_error recs 2 = Some rec /\
    r_error rec = true /\ r_mentioned rec = false.
Proof.
  destruct (error_flag_iff_prefix Sample.world Sample.result 0 2 "chatgpt"
              "https://api.openai.com/v1/chat/completions" "Public Safety"
              "What companies install in-car computers and cameras for law enforcement?")
    as (recs & rec & H1 & H2 & _ & _ & H3).
  - vm_compute. reflexivity.
  - reflexivity.
  - reflexivity.
  - exists recs, rec. split; [exact H1|]. split; [exact H2|].
    apply (H3 "ERROR codes aside, Fleet Tech is an option.").
    + reflexivity.
    + exists " codes aside, Fleet Tech is an option.". reflexivity.
Defined.

Lemma platforms_follow_catalog_sample :
  PyDict.keys (platforms Sample.result) = ["chatgpt"; "claude"; "gemini"].
Proof.
  apply (platforms_follow_catalog Sample.world Sample.result).
  vm_compute. reflexivity.
Defined.

Lemma overall_pct_rounds_sample :
  total_hits (summary_of Sample.result) = 2 /\
  pct_of 2 75 = Ok (overall_pct (summary_of Sample.result)) /\
  overall_pct (summary_of Sample.result) = 3.
Proof.
  destruct (overall_pct_rounds Sample.world Sample.result)
    as (_ & Hq & _ & Hp & Hr & _).
  - vm_compute. reflexivity.
  - assert (Hh : total_hits (summary_of Sample.result) = 2)
      by (vm_compute; reflexivity).
    rewrite Hq, Hh in Hp, Hr.
    split; [exact Hh|]. split; [exact Hp | exact Hr].
Defined.

Lemma winning_gap_partition_sample :
  NoDup (PyDict.keys (winning_prompts (summary_of Sample.result))) /\
  NoDup (PyDict.keys (gap_prompts (summary_of Sample.result))).
Proof.
  destruct (winning_gap_partition Sample.world Sample.result)
    as (Hw & Hg & _).
  - vm_compute. reflexivity.
  - split; [exact Hw | exact Hg].
Defined.

Lemma wow_delta_against_latest_sample :
  exists r,
    fst (run_tracker Sample.later) = Ok r /\
    wow_delta (summary_of r) <> None.
Proof.
  destruct (wow_delta_against_latest Sample.later) as (Hret & Hall).
  - intros name doc [Hin|[Hin|[]]] G; injection Hin as <- <-.
    + exists Sample.result. reflexivity.
    + vm_compute in G. discriminate G.
  - destruct Hret as (r & Hrun); [vm_compute; reflexivity|].
    exists r. split; [exact Hrun|]. intros Hn.
    pose proof (proj1 (proj1 (Hall r Hrun)) Hn "week_2025-03-10.json"
                  (results_to_json Sample.result) (or_introl eq_refl)) as G.
    vm_compute in G. discriminate G.
Defined.

Lemma slack_success_iff_200_sample :
  send_to_slack "report" Sample.world = (Ok tt, Sample.world) /\
  send_to_slack "report" Sample.later = (Raise (SystemExit 1), Sample.later).
Proof.
  split.
  - apply (slack_success_iff_200 "report" Sample.world 200 "ok");
      reflexivity.
  - apply (slack_success_iff_200 "report" Sample.later 503
             "service unavailable"); [reflexivity | lia].
Defined.

Lemma delta_indicator_by_sign_sample :
  delta_str (wow_delta (summary_of Sample.result))
  = "_baseline week — tracking starts now_".
Proof.
  destruct (delta_indicator_by_sign Sample.result Sample.report_lines)
    as (_ & Hbase & _).
  - vm_compute. reflexivity.
  - apply Hbase. reflexivity.
Defined.

Lemma gap_listing_sorted_capped_sample :
  Permutation (sorted_by_priority (gap_prompts (summary_of Sample.result)))
              (gap_prompts (summary_of Sample.result)) /\
  nth_error (gap_section (gap_prompts (summary_of Sample.result))) 8
  = Some ("  _...and "
            ++ PyStr.of_int
                 (Z.of_nat (List.length (gap_prompts (summary_of Sample.result)))
                  - 6)
            ++ " more_").
Proof.
  destruct (gap_listing_sorted_capped Sample.result Sample.report_lines)
    as (_ & _ & Hperm & _ & _ & _ & _ & _ & _ & _ & _ & _ & _ & _ & _ & Hmore).
  - vm_compute. reflexivity.
  - split; [exact Hperm|]. apply Hmore. vm_compute. reflexivity.
Defined.

(** * Further properties of the code *)

(** ** Persistence *)

Lemma str_length_app (a b : string) :
  String.length (a ++ b) = (String.length a + String.length b)%nat.
Proof. induction a as [|c a IH]; simpl; [reflexivity | now rewrite IH]. Qed.

Lemma substring_whole (b : string) : String.substring 0 (String.length b) b = b.
Proof. induction b as [|c b IH]; simpl; [reflexivity | now rewrite IH]. Qed.

Lemma substring_suffix (a b : string) :
  String.substring (String.length a) (String.length b) (a ++ b) = b.
Proof. induction a as [|c a IH]; simpl; [apply substring_whole | exact IH]. Qed.

(** Every name [save_results] writes is one [load_previous_week] reads. *)
Lemma glob_week_saved (d : string) : glob_week ("week_" ++ d ++ ".json") = true.
Proof.
  assert (He : forall a,
    String.substring (String.length (a ++ ".json") - 5) 5 (a ++ ".json")
    = ".json").
  { intros a. rewrite str_length_app.
    replace (String.length a + String.length ".json" - 5)%nat
      with (String.length a) by (simpl; lia).
    apply (substring_suffix a ".json"). }
  assert (Hl : Nat.leb 10 (String.length ("week_" ++ d ++ ".json")) = true)
    by (apply Nat.leb_le; rewrite !str_length_app; simpl; lia).
  assert (Hs : PyStr.startswith ("week_" ++ d ++ ".json") "week_" = true)
    by (apply startswith_spec; eexists; reflexivity).
  unfold glob_week. rewrite Hl, Hs.
  rewrite <- (str_app_assoc "week_" d ".json"), He. reflexivity.
Qed.

Lemma in_set_cases {V} k (v : V) d k' v' :
  In (k', v') (PyDict.set k v d) -> (k', v') = (k, v) \/ In (k', v') d.
Proof.
  induction d as [|[k0 v0] d IH]; simpl.
  - intros [H|[]]. left. now symmetry.
  - destruct (String.eqb_spec k k0) as [->|Hne]; simpl.
    + intros [H|H]; [left; now symmetry | right; now right].
    + intros [H|H]; [right; now left|].
      destruct (IH H) as [H'|H']; [now left | right; now right].
Qed.

Lemma keys_set_in {V} k (v : V) d : In k (PyDict.keys (PyDict.set k v d)).
Proof.
  apply mem_true_iff. unfold PyDict.mem. now rewrite get_set_same.
Qed.

Lemma keys_set_nodup {V} k (v : V) d :
  NoDup (PyDict.keys d) -> NoDup (PyDict.keys (PyDict.set k v d)).
Proof.
  intros Hnd. destruct (PyDict.mem k d) eqn:M.
  - now rewrite keys_set_mem.
  - rewrite keys_set_fresh by exact M.
    apply NoDup_app; [exact Hnd | repeat constructor; auto|].
    intros k' Hk [<-|[]]. apply mem_true_iff in Hk. congruence.
Qed.

(** X1. Saving and loading round-trip: in a directory with distinct file
    names whose week files all sort at or below the name being written,
    [load_previous_week] after [save_results r] returns the document
    that was written for [r]. *)
Theorem save_then_load r w :
  NoDup (PyDict.keys (data_dir w)) ->
  (forall name, In name (PyDict.keys (data_dir w)) ->
                glob_week name = true ->
                String.leb name (snapshot_path w) = true) ->
  fst (save_results r w) = Ok (snapshot_path w) /\
  load_previous_week (snd (save_results r w))
  = (Ok (Some (results_to_json r)), snd (save_results r w)).
Proof.
  intros Hnd Hmax. split; [reflexivity|].
  rewrite load_previous_week_run. f_equal. f_equal.
  set (w1 := snd (save_results r w)).
  assert (Hdir : data_dir w1
                 = PyDict.set (snapshot_path w) (results_to_json r) (data_dir w))
    by reflexivity.
  assert (Hg : glob_week (snapshot_path w) = true) by apply glob_week_saved.
  destruct (previous_doc w1) as [doc|] eqn:E.
  - destruct (previous_doc_some w1 doc E) as (latest & Hin & G & Hlatest).
    rewrite Hdir in Hin, Hlatest.
    assert (Hle : String.leb (snapshot_path w) latest = true).
    { apply (Hlatest _ (results_to_json r)); [|exact Hg].
      apply get_some_in, get_set_same. }
    assert (Heq : latest = snapshot_path w).
    { destruct (in_set_cases _ _ _ _ _ Hin) as [H|H].
      - now inversion H.
      - apply String.leb_antisym; [|exact Hle].
        apply Hmax; [|exact G].
        unfold PyDict.keys. change latest with (fst (latest, doc)).
        now apply in_map. }
    subst latest.
    apply (in_get_nodup _ _ _ (keys_set_nodup _ _ _ Hnd)) in Hin.
    rewrite get_set_same in Hin. now inversion Hin.
  - exfalso. pose proof (proj1 (previous_doc_none w1) E) as Hnone.
    rewrite (Hnone (snapshot_path w) (results_to_json r)) in Hg;
      [discriminate|].
    rewrite Hdir. apply get_some_in, get_set_same.
Qed.

Lemma sent_saved w r : sent (saved w r) = (sent w + 75)%nat.
Proof. reflexivity. Qed.

Lemma clock_saved w r : clock (saved w r) = S (S (clock w)).
Proof. reflexivity. Qed.

Lemma data_dir_saved w r :
  data_dir (saved w r)
  = PyDict.set (snapshot_path (tick w)) (results_to_json r) (data_dir w).
Proof. reflexivity. Qed.

Lemma webhook_saved w r : webhook (saved w r) = webhook w.
Proof. reflexivity. Qed.

Lemma results_in_week w wow : week (results_in w wow) = today w (clock w).
Proof. reflexivity. Qed.

(** X2. What a run does to the world. It issues [requests_of_run]
    requests: all 75 when every reply is a text or an exception, fewer
    when it meets a reply that is not a text, at which it stops with
    [AttributeError]. When it returns, it has read the clock twice: the
    snapshot's week is the first date, the snapshot is the document
    under the file named by the second date, and every other file is as
    before. When it raises, it has read the clock once and no file has
    changed. *)
Theorem run_tracker_effects w res w' :
  run_tracker w = (res, w') ->
  sent w' = (sent w + requests_of_run w)%nat /\
  (requests_of_run w <= 75)%nat /\
  (replies_are_text w = true -> requests_of_run w = 75%nat) /\
  (replies_are_text w = false -> res = Raise AttributeError) /\
  match res with
  | Ok r =>
      replies_are_text w = true /\
      clock w' = S (S (clock w)) /\
      week r = today w (clock w) /\
      snapshot_path (tick w) = "week_" ++ today w (S (clock w)) ++ ".json" /\
      PyDict.get (snapshot_path (tick w)) (data_dir w')
      = Some (results_to_json r) /\
      (forall name, name <> snapshot_path (tick w) ->
                    PyDict.get name (data_dir w') = PyDict.get name (data_dir w))
  | Raise _ => clock w' = S (clock w) /\ data_dir w' = data_dir w
  end.
Proof.
  intros Hrun.
  split; [|split; [apply requests_of_run_le|
                   split; [apply requests_of_run_all_text|]]].
  - destruct (replies_are_text w) eqn:E.
    + rewrite (requests_of_run_all_text w E).
      rewrite (run_tracker_run w E) in Hrun.
      destruct (compute_wow_delta _ _ _) as [wow|e]; injection Hrun as <- <-;
        [apply sent_saved | reflexivity].
    + rewrite (run_tracker_stop w E) in Hrun. injection Hrun as <- <-.
      reflexivity.
  - destruct (replies_are_text w) eqn:E.
    + split; [discriminate|].
      rewrite (run_tracker_run w E) in Hrun.
      destruct (compute_wow_delta _ _ _) as [wow|e]; injection Hrun as <- <-.
      * split; [reflexivity|]. split; [apply clock_saved|].
        split; [apply results_in_week|]. split; [reflexivity|].
        rewrite data_dir_saved. split; [apply get_set_same|].
        intros name Hne. apply get_set_other.
        intros H. apply Hne. symmetry. exact H.
      * split; reflexivity.
    + rewrite (run_tracker_stop w E) in Hrun. injection Hrun as <- <-.
      split; [reflexivity|]. split; reflexivity.
Qed.

Lemma load_previous_week_doc w prev :
  load_previous_week w = (Ok prev, w) -> previous_doc w = prev.
Proof. rewrite load_previous_week_run. now intros [= ->]. Qed.

(** A directory whose only week file is the one just written. *)
Lemma previous_doc_single w d path v :
  (forall name doc, In (name, doc) d -> glob_week name = false) ->
  data_dir w = PyDict.set path v d ->
  glob_week path = true ->
  previous_doc w = Some v.
Proof.
  intros Hnone Hdir Hg.
  destruct (previous_doc w) as [doc|] eqn:E.
  - destruct (previous_doc_some w doc E) as (latest & Hin & G & _).
    rewrite Hdir in Hin.
    destruct (in_set_cases _ _ _ _ _ Hin) as [H|H].
    + now inversion H.
    + rewrite (Hnone _ _ H) in G. discriminate.
  - pose proof (proj1 (previous_doc_none w) E path v) as H.
    rewrite H in Hg; [discriminate|].
    rewrite Hdir. apply get_some_in, get_set_same.
Qed.

(** The run when the latest week file is a snapshot of [r0]. *)
Lemma run_against_snapshot w r0 :
  replies_are_text w = true ->
  previous_doc w = Some (results_to_json r0) ->
  exists r,
    fst (run_tracker w) = Ok r /\
    wow_delta (summary_of r)
    = Some (overall_pct (summary_of r) - overall_pct (summary_of r0)).
Proof.
  intros Htext Hprev.
  rewrite (run_tracker_run w Htext), Hprev, compute_wow_delta_snapshot.
  rewrite pct_of_overall by apply total_hits_bound. rewrite rbind_ok.
  exists (results_in w
            (Some (PyNum.round_half_even_quot
                     (count_total_hits (platforms_in w) * 100)
                     (Z.of_nat (List.length PROMPTS) * 3)
                   - overall_pct (summary_of r0)))).
  split; [reflexivity|]. now rewrite results_in_wow, results_in_pct.
Qed.

Lemma compute_wow_delta_none hits queries :
  compute_wow_delta None hits queries = Ok None.
Proof. reflexivity. Qed.

(** X3. Two runs in a row: a first run in a directory without week
    files reports no delta, and the next run on the directory it left,
    when its replies are all texts or exceptions, returns and reports
    its own percentage minus the first run's. *)
Theorem second_run_compares_with_first w1 r1 w2 :
  (forall name doc, In (name, doc) (data_dir w1) -> glob_week name = false) ->
  fst (run_tracker w1) = Ok r1 ->
  data_dir w2 = data_dir (snd (run_tracker w1)) ->
  replies_are_text w2 = true ->
  wow_delta (summary_of r1) = None /\
  exists r2,
    fst (run_tracker w2) = Ok r2 /\
    wow_delta (summary_of r2)
    = Some (overall_pct (summary_of r2) - overall_pct (summary_of r1)).
Proof.
  intros Hnone Hrun Hdir Htext2.
  pose proof (run_tracker_texts w1 r1 Hrun) as Htext1.
  rewrite (run_tracker_run w1 Htext1) in Hrun, Hdir.
  rewrite (proj2 (previous_doc_none w1) Hnone) in Hrun, Hdir.
  rewrite compute_wow_delta_none in Hrun, Hdir.
  cbn [fst snd] in Hrun, Hdir. rewrite data_dir_saved in Hdir.
  injection Hrun as <-. split; [reflexivity|].
  assert (Hprev : previous_doc w2 = Some (results_to_json (results_in w1 None))).
  { apply (previous_doc_single w2 (data_dir w1) (snapshot_path (tick w1)));
      [exact Hnone | exact Hdir | apply glob_week_saved]. }
  exact (run_against_snapshot w2 _ Htext2 Hprev).
Qed.

Lemma compute_wow_delta_no_summary d hits queries :
  PyDict.mem "summary" d = false ->
  compute_wow_delta (Some (JDict d)) hits queries = Ok None.
Proof.
  intros Hm. unfold compute_wow_delta, py_truthy, py_in.
  destruct d; [reflexivity|]. cbn [rbind]. now rewrite Hm.
Qed.

Lemma compute_wow_delta_summary d v hits queries :
  PyDict.get "summary" d = Some v ->
  compute_wow_delta (Some (JDict d)) hits queries
  = (prev_pct <~ py_get v "overall_pct" (JInt 0) ;;
     cur <~ pct_of hits queries ;;
     delta <~ py_int_sub cur prev_pct ;;
     Ok (Some delta)).
Proof.
  intros Hg. unfold compute_wow_delta, py_truthy, py_in, py_getitem,
    PyDict.getitem, PyDict.mem.
  destruct d; [discriminate|]. rewrite Hg. reflexivity.
Qed.

(** X4. A latest week file that is a JSON object without a [summary]
    key does not stop the run: when the replies are all texts or
    exceptions the run returns and reports no delta, although a week
    file exists. *)
Theorem snapshot_without_summary w d :
  replies_are_text w = true ->
  load_previous_week w = (Ok (Some (JDict d)), w) ->
  PyDict.mem "summary" d = false ->
  exists r, fst (run_tracker w) = Ok r /\ wow_delta (summary_of r) = None.
Proof.
  intros Htext Hload Hm. apply load_previous_week_doc in Hload.
  rewrite (run_tracker_run w Htext), Hload,
    (compute_wow_delta_no_summary _ _ _ Hm).
  exists (results_in w None). split; reflexivity.
Qed.

(** X5. A latest snapshot whose summary has no [overall_pct] counts as
    a previous percentage of 0: when the replies are all texts or
    exceptions the run returns, and its delta is its own
    [overall_pct]. *)
Theorem missing_overall_pct_counts_as_zero w d s :
  replies_are_text w = true ->
  load_previous_week w = (Ok (Some (JDict d)), w) ->
  PyDict.get "summary" d = Some (JDict s) ->
  PyDict.get "overall_pct" s = None ->
  exists r,
    fst (run_tracker w) = Ok r /\
    wow_delta (summary_of r) = Some (overall_pct (summary_of r)).
Proof.
  intros Htext Hload Hs Hp. apply load_previous_week_doc in Hload.
  rewrite (run_tracker_run w Htext), Hload,
    (compute_wow_delta_summary _ _ _ _ Hs).
  unfold py_get. rewrite Hp. rewrite rbind_ok.
  rewrite pct_of_overall by apply total_hits_bound.
  rewrite rbind_ok. cbn [py_int_sub]. rewrite rbind_ok.
  exists (results_in w
            (Some (PyNum.round_half_even_quot
                     (count_total_hits (platforms_in w) * 100)
                     (Z.of_nat (List.length PROMPTS) * 3) - 0))).
  split; [reflexivity|].
  now rewrite results_in_wow, results_in_pct, Z.sub_0_r.
Qed.

(** X6. A latest week file that cannot be read as a snapshot aborts a
    run whose replies are all texts or exceptions, after all 75 queries
    and before anything is written: a document that is a non-zero
    integer or [true] raises [TypeError], an object whose [summary] is
    not an object raises [AttributeError]. *)
Theorem malformed_snapshot_aborts_run w doc :
  replies_are_text w = true ->
  load_previous_week w = (Ok (Some doc), w) ->
  ((exists z, doc = JInt z /\ z <> 0) \/ doc = JBool true ->
   run_tracker w
   = (Raise TypeError, advance (3 * List.length PROMPTS) (tick w))) /\
  (forall d v,
      doc = JDict d -> PyDict.get "summary" d = Some v ->
      (forall s, v <> JDict s) ->
      run_tracker w
      = (Raise AttributeError, advance (3 * List.length PROMPTS) (tick w))) /\
  sent (advance (3 * List.length PROMPTS) (tick w)) = (sent w + 75)%nat /\
  data_dir (advance (3 * List.length PROMPTS) (tick w)) = data_dir w.
Proof.
  intros Htext Hload. apply load_previous_week_doc in Hload.
  split; [|split; [|split; reflexivity]].
  - intros [(z & -> & Hz)| ->]; rewrite (run_tracker_run w Htext), Hload;
      unfold compute_wow_delta, py_truthy; [|reflexivity].
    destruct (Z.eqb_spec z 0); [contradiction | reflexivity].
  - intros d v -> Hs Hv.
    rewrite (run_tracker_run w Htext), Hload,
      (compute_wow_delta_summary _ _ _ _ Hs).
    destruct v; try reflexivity. now elim (Hv d0).
Qed.

(** ** Records of the queries *)

Lemma take_len s : forall n,
  PyStr.len (PyStr.take n s) = Nat.min n (PyStr.len s).
Proof.
  induction s as [|c s IH]; intros n; cbn [PyStr.take PyStr.len].
  - now rewrite Nat.min_0_r.
  - destruct (PyStr.is_continuation c) eqn:E.
    + cbn [PyStr.len]. rewrite E. apply IH.
    + destruct n as [|n]; [reflexivity|].
      cbn [PyStr.len]. rewrite E, IH. reflexivity.
Qed.

Lemma take_prefix s : forall n, exists rest, s = PyStr.take n s ++ rest.
Proof.
  induction s as [|c s IH]; intros n; cbn [PyStr.take].
  - now exists "".
  - destruct (PyStr.is_continuation c).
    + destruct (IH n) as [rest H]. exists rest. simpl. now rewrite <- H.
    + destruct n as [|n]; [now exists (String c s)|].
      destruct (IH n) as [rest H]. exists rest. simpl. now rewrite <- H.
Qed.

Lemma take_all s : forall n, (PyStr.len s <= n)%nat -> PyStr.take n s = s.
Proof.
  induction s as [|c s IH]; intros n; cbn [PyStr.take PyStr.len].
  - reflexivity.
  - destruct (PyStr.is_continuation c); intros H.
    + now rewrite IH.
    + destruct n as [|n]; [lia|]. rewrite IH; [reflexivity | lia].
Qed.

(** On a text of ASCII characters, code points are bytes. *)
Lemma len_ascii s :
  (forall c, In c (list_ascii_of_string s) -> (nat_of_ascii c < 128)%nat) ->
  PyStr.len s = String.length s.
Proof.
  induction s as [|c s IH]; intros H; cbn [PyStr.len String.length].
  - reflexivity.
  - assert (Hc : PyStr.is_continuation c = false).
    { unfold PyStr.is_continuation.
      assert (nat_of_ascii c < 128)%nat by (apply H; now left).
      destruct (Nat.leb_spec 128 (nat_of_ascii c)); [lia | reflexivity]. }
    rewrite Hc, IH; [reflexivity|]. intros c' Hc'. apply H. now right.
Qed.

Lemma run_record_at w r k i name url c p :
  fst (run_tracker w) = Ok r ->
  nth_error endpoints k = Some (name, url) ->
  nth_error PROMPTS i = Some (c, p) ->
  exists recs,
    nth_error (platforms r) k = Some (name, recs) /\
    nth_error recs i
    = Some (make_record c p (response_text (api w (request_no w k i) url p))).
Proof.
  intros Hrun Hk Hi. apply run_tracker_inv in Hrun.
  destruct Hrun as (wow & _ & ->). now apply platforms_in_nth.
Qed.

(** X7. A request that fails is not lost and does not stop the run: the
    record of that platform and prompt is flagged as an error, is not a
    mention, and keeps the first 300 characters of [ERROR: <exception>],
    whatever the exception text says, the brand name included. *)
Theorem failed_request_is_error_record w r k i name url c p e :
  fst (run_tracker w) = Ok r ->
  nth_error endpoints k = Some (name, url) ->
  nth_error PROMPTS i = Some (c, p) ->
  api w (request_no w k i) url p = Raised e ->
  exists recs rec,
    nth_error (platforms r) k = Some (name, recs) /\
    nth_error recs i = Some rec /\
    r_category rec = c /\ r_prompt rec = p /\
    r_error rec = true /\ r_mentioned rec = false /\
    r_response_snippet rec = PyStr.take 300 ("ERROR: " ++ e).
Proof.
  intros Hrun Hk Hi Ha.
  destruct (run_record_at w r k i name url c p Hrun Hk Hi) as (recs & H1 & H2).
  rewrite Ha in H2. cbn [response_text] in H2.
  exists recs, (make_record c p ("ERROR: " ++ e)).
  repeat split; assumption || reflexivity.
Qed.

(** X8. A request that succeeds with a text not starting with [ERROR]
    gives a record without error flag whose [mentioned] field is the
    brand detector's verdict on the whole text, not on the snippet. *)
Theorem answered_request_record w r k i name url c p text :
  fst (run_tracker w) = Ok r ->
  nth_error endpoints k = Some (name, url) ->
  nth_error PROMPTS i = Some (c, p) ->
  api w (request_no w k i) url p = Answer text ->
  PyStr.startswith text "ERROR" = false ->
  exists recs rec,
    nth_error (platforms r) k = Some (name, recs) /\
    nth_error recs i = Some rec /\
    r_error rec = false /\
    r_mentioned rec = brand_mentioned text /\
    r_response_snippet rec = PyStr.take 300 text.
Proof.
  intros Hrun Hk Hi Ha Hs.
  destruct (run_record_at w r k i name url c p Hrun Hk Hi) as (recs & H1 & H2).
  rewrite Ha in H2. cbn [response_text] in H2.
  exists recs, (make_record c p text).
  split; [exact H1|]. split; [exact H2|].
  unfold make_record; cbn [r_error r_mentioned r_response_snippet].
  rewrite Hs. repeat split; reflexivity.
Qed.

(** X9. Every record of a run stores the first 300 characters (code
    points) of the response: at most 300 of them, a prefix of the
    response, and the whole response when it has at most 300. *)
Theorem snippet_is_bounded_prefix w r name recs rec :
  fst (run_tracker w) = Ok r ->
  In (name, recs) (platforms r) ->
  In rec recs ->
  (PyStr.len (r_response_snippet rec) <= 300)%nat /\
  exists response rest,
    rec = make_record (r_category rec) (r_prompt rec) response /\
    r_response_snippet rec = PyStr.take 300 response /\
    PyStr.len (r_response_snippet rec) = Nat.min 300 (PyStr.len response) /\
    response = r_response_snippet rec ++ rest /\
    ((PyStr.len response <= 300)%nat -> r_response_snippet rec = response).
Proof.
  intros Hrun Hp Hr. apply run_tracker_inv in Hrun.
  destruct Hrun as (wow & _ & ->). cbn [platforms results_in] in Hp.
  apply platforms_in_cases in Hp. destruct Hp as (n & url & ->).
  apply records_from_in in Hr. destruct Hr as (c & p & resp & _ & ->).
  unfold make_record at 1 2. cbn [r_response_snippet r_category r_prompt].
  split; [rewrite take_len; lia|].
  destruct (take_prefix resp 300) as [rest Hrest].
  exists resp, rest. split; [reflexivity|].
  unfold make_record; cbn [r_response_snippet].
  split; [reflexivity|]. split; [apply take_len|].
  split; [exact Hrest | apply take_all].
Qed.

(** A slice counts characters, not bytes. *)
Example take_counts_code_points :
  String.length Sample.accented = 11%nat /\
  PyStr.len Sample.accented = 9%nat /\
  String.length (PyStr.take 4 Sample.accented) = 5%nat /\
  PyStr.len (PyStr.take 4 Sample.accented) = 4%nat.
Proof. repeat split; reflexivity. Qed.

(** ** Aggregation *)

Lemma count_total_hits_sum plats :
  count_total_hits plats
  = fold_right Z.add 0 (map (fun e => count_hits (snd e)) plats).
Proof.
  unfold count_total_hits, count_hits.
  induction plats as [|[name recs] plats IH]; [reflexivity|].
  cbn [map snd List.concat fold_right].
  rewrite filter_app, length_app, Nat2Z.inj_add. now rewrite IH.
Qed.

(** X10. The per-platform statistics of a run: one entry per platform in
    query order; [hits] counts the mentioned records of that platform,
    [total] is 25, [pct] is exactly four times [hits] and lies between 0
    and 100; the platform hits add up to [total_hits]. *)
Theorem per_platform_stats w r :
  fst (run_tracker w) = Ok r ->
  let s := summary_of r in
  PyDict.keys (per_platform s) = ["chatgpt"; "claude"; "gemini"] /\
  total_hits s
  = fold_right Z.add 0 (map (fun e => ps_hits (snd e)) (per_platform s)) /\
  forall name st,
    In (name, st) (per_platform s) ->
    exists recs,
      In (name, recs) (platforms r) /\
      ps_hits st = count_hits recs /\
      ps_total st = 25 /\
      0 <= ps_hits st <= ps_total st /\
      pct_of (ps_hits st) (ps_total st) = Ok (ps_pct st) /\
      ps_pct st = 4 * ps_hits st /\
      0 <= ps_pct st <= 100.
Proof.
  intros Hrun. apply run_tracker_inv in Hrun.
  destruct Hrun as (wow & _ & ->). cbv zeta.
  cbn [summary_of results_in per_platform total_hits platforms].
  split; [reflexivity|]. split.
  - rewrite count_total_hits_sum, map_map. reflexivity.
  - intros name st Hin. apply in_map_iff in Hin.
    destruct Hin as ([n recs] & Heq & Hin). cbn [fst snd] in Heq.
    injection Heq as <- <-. exists recs. split; [exact Hin|].
    destruct (platforms_in_cases _ _ _ Hin) as (n0 & url & ->).
    pose proof (count_hits_records w n0 url) as Hb.
    change (Z.of_nat (List.length PROMPTS)) with 25 in Hb.
    unfold stats_of; cbn [ps_hits ps_total ps_pct].
    change (Z.of_nat (List.length PROMPTS)) with 25.
    split; [reflexivity|]. split; [reflexivity|]. split; [exact Hb|].
    split; [now apply pct_of_platform|]. split; [reflexivity | lia].
Qed.

Lemma nodupb_sound l : nodupb l = true -> NoDup l.
Proof.
  induction l as [|x l IH]; simpl; [constructor|].
  intros H. apply andb_true_iff in H. destruct H as [H1 H2].
  constructor; [|now apply IH].
  intros Hin. apply negb_true_iff in H1.
  assert (existsb (String.eqb x) l = true)
    by (apply existsb_exists; exists x; split; [exact Hin | apply String.eqb_refl]).
  congruence.
Qed.

Lemma prompts_nodup : NoDup (map snd PROMPTS).
Proof. apply nodupb_sound. vm_compute. reflexivity. Qed.

Lemma fold_step_platforms (pname : string) recs : forall pm k,
  platforms_of k (fold_left (prompt_map_step pname) recs pm)
  = (platforms_of k pm
     ++ flat_map (fun rec =>
                    if andb (String.eqb k (r_prompt rec)) (r_mentioned rec)
                    then [pname] else []) recs)%list.
Proof.
  induction recs as [|rec recs IH]; intros pm k; cbn [fold_left flat_map].
  - now rewrite app_nil_r.
  - rewrite IH, prompt_map_step_platforms. now rewrite <- app_assoc.
Qed.

Lemma flat_map_once (pname k : string) (recs : list response_record) :
  NoDup (map r_prompt recs) ->
  flat_map (fun rec =>
              if andb (String.eqb k (r_prompt rec)) (r_mentioned rec)
              then [pname] else []) recs
  = if mentions k recs then [pname] else [].
Proof.
  unfold mentions. induction recs as [|rec recs IH]; [reflexivity|].
  cbn [map flat_map existsb]. intros Hnd.
  inversion Hnd as [|? ? Hn Hnd']; subst.
  rewrite (IH Hnd').
  destruct (String.eqb_spec k (r_prompt rec)) as [->|Hne]; cbn [andb].
  - assert (Hno : existsb
             (fun rec0 => andb (String.eqb (r_prompt rec) (r_prompt rec0))
                               (r_mentioned rec0)) recs = false).
    { apply not_true_is_false. intros H. apply existsb_exists in H.
      destruct H as (rec0 & Hin & H). apply andb_true_iff in H.
      destruct H as [H _]. apply String.eqb_eq in H.
      apply Hn. rewrite H. now apply in_map. }
    rewrite Hno. destruct (r_mentioned rec); reflexivity.
  - reflexivity.
Qed.

Lemma build_prompt_map_platforms plats : forall pm k,
  (forall e, In e plats -> NoDup (map r_prompt (snd e))) ->
  platforms_of k
    (fold_left
       (fun pm entry => fold_left (prompt_map_step (fst entry)) (snd entry) pm)
       plats pm)
  = (platforms_of k pm
     ++ map fst (filter (fun e => mentions k (snd e)) plats))%list.
Proof.
  induction plats as [|[pname recs] plats IH]; intros pm k Hnd;
    cbn [fold_left filter map fst snd].
  - now rewrite app_nil_r.
  - rewrite IH by (intros e He; apply Hnd; now right).
    rewrite fold_step_platforms, flat_map_once by (apply (Hnd (pname, recs)); now left).
    rewrite <- app_assoc. destruct (mentions k recs); reflexivity.
Qed.

(** The category stored with a key comes from a record of that key. *)
Lemma prompt_map_step_category pname pm rec (P : string -> string -> Prop) :
  (forall k info, In (k, info) pm -> P (pi_category info) k) ->
  P (r_category rec) (r_prompt rec) ->
  forall k info, In (k, info) (prompt_map_step pname pm rec) ->
                 P (pi_category info) k.
Proof.
  intros Hpm Hrec k info Hin. rewrite prompt_map_step_set in Hin.
  destruct (in_set_cases _ _ _ _ _ Hin) as [H|H]; [|now apply Hpm].
  injection H as -> ->. cbn [pi_category].
  destruct (PyDict.get (r_prompt rec) pm) as [i|] eqn:G; [|exact Hrec].
  apply Hpm. now apply get_some_in.
Qed.

Lemma build_prompt_map_category plats (P : string -> string -> Prop) :
  (forall e rec, In e plats -> In rec (snd e) ->
                 P (r_category rec) (r_prompt rec)) ->
  forall pm,
    (forall k info, In (k, info) pm -> P (pi_category info) k) ->
    forall k info,
      In (k, info)
        (fold_left
           (fun pm entry =>
              fold_left (prompt_map_step (fst entry)) (snd entry) pm)
           plats pm) ->
      P (pi_category info) k.
Proof.
  induction plats as [|[pname recs] plats IH]; intros Hrecs pm Hpm;
    cbn [fold_left fst snd]; [exact Hpm|].
  apply IH; [intros e rec He; apply Hrecs; now right|].
  assert (Hr : forall rec, In rec recs -> P (r_category rec) (r_prompt rec))
    by (intros rec; apply (Hrecs (pname, recs)); now left).
  clear IH Hrecs. revert pm Hpm.
  induction recs as [|rec recs IHr]; intros pm Hpm; cbn [fold_left];
    [exact Hpm|].
  apply IHr; [intros rec0 H0; apply Hr; now right|].
  apply prompt_map_step_category; [exact Hpm | apply Hr; now left].
Qed.

Lemma platforms_in_nodup_prompts w e :
  In e (platforms_in w) -> NoDup (map r_prompt (snd e)).
Proof.
  destruct e as [name recs]. intros Hin.
  destruct (platforms_in_cases _ _ _ Hin) as (n & url & ->).
  cbn [snd]. rewrite records_from_prompt_texts. apply prompts_nodup.
Qed.

Lemma build_prompt_map_platforms_run w k :
  platforms_of k (build_prompt_map (platforms_in w))
  = map fst (filter (fun e => mentions k (snd e)) (platforms_in w)).
Proof.
  unfold build_prompt_map.
  rewrite build_prompt_map_platforms by apply platforms_in_nodup_prompts.
  reflexivity.
Qed.

Lemma build_prompt_map_unfold plats :
  build_prompt_map plats
  = fold_left
      (fun pm entry => fold_left (prompt_map_step (fst entry)) (snd entry) pm)
      plats [].
Proof. reflexivity. Qed.

Lemma prompt_map_categories w k info :
  In (k, info) (build_prompt_map (platforms_in w)) ->
  in_catalog (pi_category info) k.
Proof.
  intros Hpm. rewrite build_prompt_map_unfold in Hpm.
  apply (build_prompt_map_category (platforms_in w) in_catalog) with (pm := []);
    [|intros ? ? []|exact Hpm].
  intros [name recs] rec He Hr. cbn [snd] in Hr.
  destruct (platforms_in_cases _ _ _ He) as (n & url & ->).
  apply records_from_in in Hr. destruct Hr as (c & p & resp & Hc & ->).
  exact Hc.
Qed.

Lemma results_in_winning w wow :
  winning_prompts (summary_of (results_in w wow))
  = filter is_winning (build_prompt_map (platforms_in w)).
Proof. reflexivity. Qed.

Lemma results_in_gaps w wow :
  gap_prompts (summary_of (results_in w wow))
  = filter (fun kv => negb (is_winning kv)) (build_prompt_map (platforms_in w)).
Proof. reflexivity. Qed.

Lemma results_in_platforms w wow : platforms (results_in w wow) = platforms_in w.
Proof. reflexivity. Qed.

Lemma results_in_hits w wow :
  total_hits (summary_of (results_in w wow)) = count_total_hits (platforms_in w).
Proof. reflexivity. Qed.

(** X11. Each entry of [winning_prompts] and of [gap_prompts] lists
    exactly the platforms that have a mentioned record for that prompt,
    in query order and each at most once, and carries the category the
    catalog gives the prompt. *)
Theorem prompt_entry_platforms w r k info :
  fst (run_tracker w) = Ok r ->
  In (k, info) (winning_prompts (summary_of r))
  \/ In (k, info) (gap_prompts (summary_of r)) ->
  pi_platforms info
  = map fst (filter (fun e => mentions k (snd e)) (platforms r)) /\
  NoDup (pi_platforms info) /\
  (forall name, In name (pi_platforms info) ->
                In name ["chatgpt"; "claude"; "gemini"]) /\
  In (pi_category info, k) PROMPTS.
Proof.
  intros Hrun Hin. apply run_tracker_inv in Hrun.
  destruct Hrun as (wow & _ & ->).
  rewrite results_in_winning, results_in_gaps in Hin.
  rewrite results_in_platforms.
  destruct (prompt_map_in_run w) as (N & _ & _).
  assert (Hpm : In (k, info) (build_prompt_map (platforms_in w)))
    by (destruct Hin as [H|H]; apply filter_In in H; tauto).
  assert (Hp : pi_platforms info
               = map fst (filter (fun e => mentions k (snd e)) (platforms_in w))).
  { rewrite <- (build_prompt_map_platforms_run w k).
    unfold platforms_of. now rewrite (in_get_nodup _ _ _ N Hpm). }
  assert (Hk : NoDup (PyDict.keys (platforms_in w)))
    by (apply nodupb_sound; reflexivity).
  split; [exact Hp|]. split; [|split].
  - rewrite Hp. apply (filter_keys_nodup _ _ Hk).
  - intros name Hn. rewrite Hp in Hn. apply in_map_iff in Hn.
    destruct Hn as (e & <- & He). apply filter_In in He.
    change ["chatgpt"; "claude"; "gemini"] with (map fst (platforms_in w)).
    apply in_map. tauto.
  - exact (prompt_map_categories w k info Hpm).
Qed.

Lemma filter_nil_iff {A} (f : A -> bool) l :
  filter f l = [] <-> forall x, In x l -> f x = false.
Proof.
  induction l as [|a l IH]; simpl; [tauto|].
  destruct (f a) eqn:E.
  - split; [discriminate|]. intros H. specialize (H a (or_introl eq_refl)).
    congruence.
  - rewrite IH. split; [intros H x [<-|Hx]; auto | intros H x Hx; auto].
Qed.

Lemma winning_gap_lengths (pm : PyDict.t prompt_info) (l : list string) :
  NoDup (PyDict.keys pm) -> NoDup l ->
  (forall k, In k (PyDict.keys pm) <-> In k l) ->
  (List.length (filter is_winning pm)
   + List.length (filter (fun kv => negb (is_winning kv)) pm)
   = List.length l)%nat.
Proof.
  intros N Nl K. rewrite filter_length.
  rewrite <- (length_map fst pm).
  apply Permutation_length, NoDup_Permutation; assumption.
Qed.

Lemma all_gaps_when_no_winning (pm : PyDict.t prompt_info) (n : nat) :
  (List.length (filter is_winning pm)
   + List.length (filter (fun kv => negb (is_winning kv)) pm) = n)%nat ->
  filter is_winning pm = [] ->
  List.length (filter (fun kv => negb (is_winning kv)) pm) = n.
Proof. intros Hlen H0. rewrite H0 in Hlen. exact Hlen. Qed.

Lemma no_hits_iff_no_winning
    (plats : PyDict.t (list response_record)) (pm : PyDict.t prompt_info) :
  NoDup (PyDict.keys pm) ->
  (forall k, platforms_of k pm <> []
             <-> exists name recs, In (name, recs) plats /\ mentioned_in k recs) ->
  (count_total_hits plats = 0 <-> filter is_winning pm = []).
Proof.
  intros N P. unfold count_total_hits.
  set (all := List.concat (map snd plats)).
  assert (Hz : Z.of_nat (List.length (filter r_mentioned all)) = 0
               <-> filter r_mentioned all = []).
  { destruct (filter r_mentioned all); simpl; split;
      try reflexivity; try discriminate; lia. }
  rewrite Hz. rewrite (filter_nil_iff r_mentioned all).
  rewrite (filter_nil_iff is_winning pm). split.
  - intros Hno [k info] Hin. unfold is_winning. cbn [snd].
    destruct (pi_platforms info) eqn:E; [reflexivity|]. exfalso.
    assert (Hne : platforms_of k pm <> []).
    { unfold platforms_of. rewrite (in_get_nodup _ _ _ N Hin), E.
      discriminate. }
    apply P in Hne. destruct Hne as (name & recs & He & rec & Hr & _ & Hm).
    rewrite (Hno rec) in Hm; [discriminate|].
    apply in_concat. exists recs. split; [|exact Hr].
    apply in_map_iff. now exists (name, recs).
  - intros Hno rec Hr. apply in_concat in Hr.
    destruct Hr as (recs & He & Hr). apply in_map_iff in He.
    destruct He as ([name recs'] & Heq & He). cbn [snd] in Heq. subst recs'.
    destruct (r_mentioned rec) eqn:Hm; [|reflexivity]. exfalso.
    assert (Hne : platforms_of (r_prompt rec) pm <> []).
    { apply P. exists name, recs. split; [exact He|]. now exists rec. }
    unfold platforms_of in Hne.
    destruct (PyDict.get (r_prompt rec) pm) as [info|] eqn:G;
      [|now apply Hne].
    specialize (Hno _ (get_some_in _ _ _ G)). unfold is_winning in Hno.
    cbn [snd] in Hno.
    destruct (pi_platforms info); [now apply Hne | discriminate].
Qed.

(** X12. The winning and the gap prompts of a run are 25 together, and
    the winning map is empty exactly when the run has no hit at all, in
    which case all 25 prompts are gaps. *)
Theorem prompt_counts w r :
  fst (run_tracker w) = Ok r ->
  let s := summary_of r in
  (List.length (winning_prompts s) + List.length (gap_prompts s) = 25)%nat /\
  (total_hits s = 0 <-> winning_prompts s = []) /\
  (total_hits s = 0 -> List.length (gap_prompts s) = 25%nat).
Proof.
  intros Hrun. apply run_tracker_inv in Hrun.
  destruct Hrun as (wow & _ & ->). cbv zeta.
  rewrite results_in_winning, results_in_gaps, results_in_hits.
  destruct (prompt_map_in_run w) as (N & K & P).
  pose proof (winning_gap_lengths _ _ N prompts_nodup K) as Hlen.
  pose proof (no_hits_iff_no_winning _ _ N P) as Hiff.
  rewrite length_map in Hlen.
  change (List.length PROMPTS) with 25%nat in Hlen.
  split; [exact Hlen|]. split; [exact Hiff|].
  intros H0. exact (all_gaps_when_no_winning _ _ Hlen (proj1 Hiff H0)).
Qed.

(** ** The brand detector *)

Lemma substring_of_trans a b c :
  substring_of a b -> substring_of b c -> substring_of a c.
Proof.
  intros (p1 & q1 & ->) (p2 & q2 & ->).
  exists (p2 ++ p1), (q1 ++ q2). now rewrite !str_app_assoc.
Qed.

Lemma contains_mono t v v' :
  substring_of v v' -> PyStr.contains t v' = true -> PyStr.contains t v = true.
Proof.
  intros Hv H. apply contains_spec. apply contains_spec in H.
  now apply (substring_of_trans v v' t).
Qed.

(** X13. A mention survives context: when a text mentions the brand, so
    does any text that contains it, whatever comes before and after. *)
Theorem mention_survives_context a t b :
  brand_mentioned t = true -> brand_mentioned (a ++ t ++ b) = true.
Proof.
  unfold brand_mentioned. rewrite !existsb_exists.
  intros (v & Hin & Hc). exists v. split; [exact Hin|].
  apply contains_spec. apply contains_spec in Hc.
  rewrite !lower_app.
  apply (substring_of_trans v (PyStr.lower t)); [exact Hc|].
  now exists (PyStr.lower a), (PyStr.lower b).
Qed.

(** X14. Two of the four variants decide the detector: a text mentions
    the brand exactly when its lowercase form contains [fleettec] or
    [fleet tec]; the variants ending in [h] never add a mention. *)
Theorem two_variants_decide t :
  brand_mentioned t
  = orb (PyStr.contains (PyStr.lower t) "fleettec")
        (PyStr.contains (PyStr.lower t) "fleet tec").
Proof.
  unfold brand_mentioned, BRAND_VARIANTS. cbn [existsb].
  set (l := PyStr.lower t).
  destruct (PyStr.contains l "fleettec") eqn:E1; [reflexivity|].
  destruct (PyStr.contains l "fleet tec") eqn:E2; [reflexivity|].
  assert (H3 : PyStr.contains l "fleettech" = false).
  { apply not_true_is_false. intros H.
    apply (contains_mono l "fleettec") in H; [congruence|].
    now exists "", "h". }
  assert (H4 : PyStr.contains l "fleet tech" = false).
  { apply not_true_is_false. intros H.
    apply (contains_mono l "fleet tec") in H; [congruence|].
    now exists "", "h". }
  now rewrite H3, H4.
Qed.

(** ** The report of a run *)

Lemma platform_lines_known per :
  (forall name, In name (PyDict.keys per) -> PyDict.mem name label = true) ->
  exists ls, platform_lines per = Ok ls /\ List.length ls = List.length per.
Proof.
  induction per as [|[name st] per IH]; intros Hk.
  - now exists [].
  - destruct IH as (ls & Hls & Hlen).
    { intros n Hn. apply Hk. now right. }
    assert (Hm : PyDict.mem name label = true) by (apply Hk; now left).
    unfold PyDict.mem in Hm.
    destruct (PyDict.get name label) as [lab|] eqn:G; [|discriminate].
    eexists. cbn [platform_lines]. unfold platform_line, PyDict.getitem.
    rewrite G. cbn [rbind]. rewrite Hls. cbn [rbind].
    split; [reflexivity|]. cbn [List.length]. now rewrite Hlen.
Qed.

Lemma platform_lines_unknown pre name st post :
  (forall n, In n (PyDict.keys pre) -> PyDict.mem n label = true) ->
  PyDict.mem name label = false ->
  platform_lines (pre ++ (name, st) :: post)%list = Raise (KeyError name).
Proof.
  intros Hpre Hm. induction pre as [|[n s0] pre IH].
  - cbn [app platform_lines]. unfold platform_line, PyDict.getitem.
    apply mem_get_none in Hm. now rewrite Hm.
  - cbn [app platform_lines].
    assert (Hn : PyDict.mem n label = true) by (apply Hpre; now left).
    unfold PyDict.mem in Hn.
    destruct (PyDict.get n label) as [lab|] eqn:G; [|discriminate].
    unfold platform_line, PyDict.getitem. rewrite G. cbn [rbind].
    rewrite IH; [reflexivity|]. intros n' Hn'. apply Hpre. now right.
Qed.

Lemma winning_section_length winning :
  List.length (winning_section winning)
  = match winning with
    | [] => 2%nat
    | _ => (2 + Nat.min 8 (List.length winning))%nat
    end.
Proof.
  unfold winning_section. destruct winning as [|kv winning]; [reflexivity|].
  rewrite length_app, length_map, length_firstn. reflexivity.
Qed.

Lemma gap_section_length gaps :
  List.length (gap_section gaps)
  = (2 + Nat.min 6 (List.length gaps)
     + (if Nat.ltb 6 (List.length gaps) then 1 else 0))%nat.
Proof.
  unfold gap_section.
  assert (Hlen : List.length (sorted_by_priority gaps) = List.length gaps)
    by apply Permutation_length, sorted_by_priority_perm.
  rewrite !length_app, length_map, length_firstn, Hlen. cbn [List.length].
  destruct (Z.ltb_spec 6 (Z.of_nat (List.length gaps)));
    destruct (Nat.ltb_spec 6 (List.length gaps)); cbn [List.length]; lia.
Qed.

Lemma format_lines_length r plines :
  platform_lines (per_platform (summary_of r)) = Ok plines ->
  exists lines,
    format_lines r = Ok lines /\
    format_slack_message r = Ok (PyStr.join nl lines) /\
    List.length lines
    = (5 + List.length plines
       + List.length (winning_section (winning_prompts (summary_of r)))
       + List.length (gap_section (gap_prompts (summary_of r))) + 2)%nat.
Proof.
  intros Hp. unfold format_slack_message, format_lines. rewrite Hp.
  cbn [rbind]. eexists. split; [reflexivity|]. split; [reflexivity|].
  rewrite !length_app. cbn [List.length]. lia.
Qed.

Lemma keys_length {V} (d : PyDict.t V) :
  List.length (PyDict.keys d) = List.length d.
Proof. unfold PyDict.keys. apply length_map. Qed.

Lemma results_in_per_platform_keys w wow :
  PyDict.keys (per_platform (summary_of (results_in w wow)))
  = ["chatgpt"; "claude"; "gemini"].
Proof. reflexivity. Qed.

(** The report of what a run returned can always be formatted. *)
Lemma format_run_result w wow :
  exists lines,
    format_lines (results_in w wow) = Ok lines /\
    format_slack_message (results_in w wow) = Ok (PyStr.join nl lines) /\
    List.length lines
    = (8 + List.length
             (winning_section (winning_prompts (summary_of (results_in w wow))))
       + List.length
           (gap_section (gap_prompts (summary_of (results_in w wow)))) + 2)%nat.
Proof.
  destruct (platform_lines_known (per_platform (summary_of (results_in w wow))))
    as (plines & Hp & Hlen).
  { rewrite results_in_per_platform_keys.
    intros name [<-|[<-|[<-|[]]]]; reflexivity. }
  rewrite <- (keys_length (per_platform (summary_of (results_in w wow)))),
    results_in_per_platform_keys in Hlen.
  cbn [List.length] in Hlen.
  destruct (format_lines_length _ _ Hp) as (lines & H1 & H2 & H3).
  exists lines. split; [exact H1|]. split; [exact H2|].
  rewrite H3, Hlen. reflexivity.
Qed.

Lemma report_length_bounds (W G : PyDict.t prompt_info) :
  (List.length W + List.length G = 25)%nat ->
  (21 <= 8 + List.length (winning_section W) + List.length (gap_section G) + 2
   <= 29)%nat.
Proof.
  intros H. rewrite winning_section_length, gap_section_length.
  destruct W as [|kv W]; cbn [List.length] in *;
    destruct (Nat.ltb_spec 6 (List.length G)); lia.
Qed.

(** X15. The result of a run can always be formatted: no platform label
    is missing, and the report has between 21 and 29 lines. *)
Theorem report_of_run w r :
  fst (run_tracker w) = Ok r ->
  exists lines,
    format_lines r = Ok lines /\
    format_slack_message r = Ok (PyStr.join nl lines) /\
    (21 <= List.length lines <= 29)%nat.
Proof.
  intros Hrun. apply run_tracker_inv in Hrun.
  destruct Hrun as (wow & _ & ->).
  destruct (format_run_result w wow) as (lines & H1 & H2 & H3).
  exists lines. split; [exact H1|]. split; [exact H2|].
  rewrite H3. apply report_length_bounds.
  rewrite results_in_winning, results_in_gaps.
  destruct (prompt_map_in_run w) as (N & K & _).
  pose proof (winning_gap_lengths _ _ N prompts_nodup K) as Hlen.
  rewrite length_map in Hlen. exact Hlen.
Qed.

(** X16. A summary with a platform the formatter has no label for
    cannot be formatted: the formatter raises [KeyError] for the first
    such platform, whatever else the summary holds. *)
Theorem unknown_platform_raises r pre name st post :
  per_platform (summary_of r) = (pre ++ (name, st) :: post)%list ->
  (forall n, In n (PyDict.keys pre) -> PyDict.mem n label = true) ->
  PyDict.mem name label = false ->
  format_slack_message r = Raise (KeyError name).
Proof.
  intros Hper Hpre Hm. unfold format_slack_message, format_lines.
  rewrite Hper, (platform_lines_unknown pre name st post Hpre Hm).
  reflexivity.
Qed.

Lemma filter_category_insert (c : string) x l :
  filter (fun kv => String.eqb (pi_category (snd kv)) c) (insert_by_key x l)
  = if String.eqb (pi_category (snd x)) c
    then x :: filter (fun kv => String.eqb (pi_category (snd kv)) c) l
    else filter (fun kv => String.eqb (pi_category (snd kv)) c) l.
Proof.
  induction l as [|y l IH]; cbn [insert_by_key filter]; [reflexivity|].
  destruct (Z.leb_spec (priority_key x) (priority_key y)) as [Hle|Hgt];
    cbn [filter]; [reflexivity|].
  rewrite IH.
  destruct (String.eqb_spec (pi_category (snd x)) c) as [Hx|Hx];
    [|reflexivity].
  destruct (String.eqb_spec (pi_category (snd y)) c) as [Hy|Hy];
    [|reflexivity].
  exfalso. unfold priority_key in Hgt. rewrite Hx, Hy in Hgt. lia.
Qed.

(** X17. The sort of the gap listing is stable: the gap prompts of one
    category appear in the sorted listing in the order they have in
    [gap_prompts], which for a run is catalog order. *)
Theorem gap_sort_is_stable (gaps : PyDict.t prompt_info) (c : string) :
  filter (fun kv => String.eqb (pi_category (snd kv)) c)
         (sorted_by_priority gaps)
  = filter (fun kv => String.eqb (pi_category (snd kv)) c) gaps.
Proof.
  induction gaps as [|x gaps IH]; [reflexivity|].
  cbn [sorted_by_priority fold_right]. fold (sorted_by_priority gaps).
  rewrite filter_category_insert, IH. reflexivity.
Qed.

(** ** The whole program *)

Lemma send_to_slack_world message w : snd (send_to_slack message w) = w.
Proof.
  unfold send_to_slack. destruct (webhook w message) as [status text|e];
    [destruct (status =? 200)|]; reflexivity.
Qed.

Lemma send_to_slack_exit message w :
  exit_code (fst (send_to_slack message w)) = 0
  <-> exists text, webhook w message = Responded 200 text.
Proof.
  unfold send_to_slack. destruct (webhook w message) as [status text|e].
  - destruct (Z.eqb_spec status 200) as [->|Hne]; cbn [fst exit_code].
    + split; [intros _; now exists text | reflexivity].
    + split; [discriminate|]. intros (t & [= H _]). contradiction.
  - cbn [fst exit_code]. split; [discriminate | intros (t & H); discriminate].
Qed.

Lemma compute_wow_delta_persisted_ok w :
  persisted w ->
  exists wow,
    compute_wow_delta (previous_doc w) (count_total_hits (platforms_in w))
      (Z.of_nat (List.length PROMPTS) * 3) = Ok wow.
Proof.
  intros Hp.
  destruct (compute_wow_delta_persisted w Hp)
    as [[_ Hw]|(latest & r0 & _ & _ & _ & _ & Hw)]; rewrite Hw; eexists;
    reflexivity.
Qed.

(** X18. The whole program on a directory of earlier snapshots, when the
    replies are all texts or exceptions: the run and the formatting
    succeed, the snapshot is on disk, under the file named by the date of
    the second reading of the clock, before delivery is tried and stays
    there when delivery fails, and the exit code is zero exactly when
    the webhook answered the report with status 200; a POST that raises
    ends the program with a non-zero code as well. *)
Theorem main_persists_before_delivery w :
  persisted w ->
  replies_are_text w = true ->
  exists r msg,
    fst (run_tracker w) = Ok r /\
    format_slack_message r = Ok msg /\
    main w = send_to_slack msg (snd (run_tracker w)) /\
    PyDict.get (snapshot_path (tick w)) (data_dir (snd (main w)))
    = Some (results_to_json r) /\
    (exit_code (fst (main w)) = 0
     <-> exists text, webhook w msg = Responded 200 text).
Proof.
  intros Hp Htext. destruct (compute_wow_delta_persisted_ok w Hp) as (wow & Hw).
  destruct (format_run_result w wow) as (lines & _ & Hfmt & _).
  exists (results_in w wow), (PyStr.join nl lines).
  assert (Hmain : main w
                  = send_to_slack (PyStr.join nl lines) (snd (run_tracker w))).
  { unfold main. unfold bind at 1. rewrite (run_tracker_run w Htext), Hw.
    unfold bind at 1, lift. rewrite Hfmt. reflexivity. }
  rewrite Hmain, send_to_slack_world, send_to_slack_exit.
  rewrite (run_tracker_run w Htext), Hw. cbn [fst snd].
  rewrite data_dir_saved, webhook_saved.
  split; [reflexivity|]. split; [exact Hfmt|]. split; [reflexivity|].
  split; [apply get_set_same | reflexivity].
Qed.

(** X20. A reply that is not a text stops the run: when the value at
    the place of the generated text is not a string, the run raises
    [AttributeError] at the first such reply, after at most 75 requests,
    and writes no file. *)
Theorem non_text_reply_stops_run w k i name url c p :
  nth_error endpoints k = Some (name, url) ->
  nth_error PROMPTS i = Some (c, p) ->
  api w (request_no w k i) url p = NotText ->
  replies_are_text w = false /\
  run_tracker w
  = (Raise AttributeError, advance (requests_of_run w) (tick w)) /\
  (requests_of_run w <= 75)%nat /\
  data_dir (snd (run_tracker w)) = data_dir w /\
  exit_code (fst (main w)) = 1.
Proof.
  intros Hk Hi Ha.
  assert (E : replies_are_text w = false).
  { apply not_true_is_false. intros H.
    exact (proj1 (replies_are_text_spec w) H k i name url c p Hk Hi Ha). }
  split; [exact E|]. split; [exact (run_tracker_stop w E)|].
  split; [apply requests_of_run_le|].
  unfold main. unfold bind at 1. rewrite (run_tracker_stop w E).
  split; reflexivity.
Qed.

(** X19. Which snapshot is loaded does not depend on the order in which
    the directory lists its files: two listings of the same files, with
    distinct names, give the same previous snapshot. *)
Theorem load_ignores_listing_order w1 w2 :
  NoDup (PyDict.keys (data_dir w1)) ->
  Permutation (data_dir w1) (data_dir w2) ->
  fst (load_previous_week w1) = fst (load_previous_week w2).
Proof.
  intros Hnd Hperm. rewrite !load_previous_week_run. cbn [fst]. f_equal.
  assert (Hin : forall x, In x (data_dir w1) <-> In x (data_dir w2)).
  { intros x. split; apply Permutation_in;
      [exact Hperm | now apply Permutation_sym]. }
  destruct (previous_doc w1) as [d1|] eqn:E1;
    destruct (previous_doc w2) as [d2|] eqn:E2.
  - destruct (previous_doc_some w1 d1 E1) as (n1 & H1 & G1 & M1).
    destruct (previous_doc_some w2 d2 E2) as (n2 & H2 & G2 & M2).
    apply Hin in H2.
    assert (n1 = n2).
    { apply String.leb_antisym.
      - apply (M2 n1 d1); [now apply Hin | exact G1].
      - apply (M1 n2 d2); [exact H2 | exact G2]. }
    subst n2.
    apply (in_get_nodup _ _ _ Hnd) in H1, H2. congruence.
  - exfalso. destruct (previous_doc_some w1 d1 E1) as (n1 & H1 & G1 & _).
    rewrite (proj1 (previous_doc_none w2) E2 n1 d1) in G1;
      [discriminate | now apply Hin].
  - exfalso. destruct (previous_doc_some w2 d2 E2) as (n2 & H2 & G2 & _).
    rewrite (proj1 (previous_doc_none w1) E1 n2 d2) in G2;
      [discriminate | now apply Hin].
  - reflexivity.
Qed.

(** ** Worked instances of the further properties *)

Lemma save_then_load_sample :
  fst (save_results Sample.result Sample.later) = Ok "week_2025-03-17.json" /\
  load_previous_week (snd (save_results Sample.result Sample.later))
  = (Ok (Some (results_to_json Sample.result)),
     snd (save_results Sample.result Sample.later)).
Proof.
  apply (save_then_load Sample.result Sample.later).
  - apply nodupb_sound. reflexivity.
  - intros name [<-|[<-|[]]] G.
    + vm_compute. reflexivity.
    + vm_compute in G. discriminate G.
Defined.

Lemma run_tracker_effects_sample :
  sent (snd (run_tracker Sample.null_reply)) = 28%nat /\
  fst (run_tracker Sample.null_reply) = Raise AttributeError /\
  exists r,
    fst (run_tracker Sample.overnight) = Ok r /\
    week r = "2025-03-09" /\
    PyDict.get "week_2025-03-10.json"
      (data_dir (snd (run_tracker Sample.overnight)))
    = Some (results_to_json r).
Proof.
  destruct (run_tracker_effects Sample.null_reply _ _
              (surjective_pairing (run_tracker Sample.null_reply)))
    as (H & _ & _ & Hstop & _).
  split; [exact H|]. split; [apply Hstop; vm_compute; reflexivity|].
  assert (Hrun : fst (run_tracker Sample.overnight)
                 = Ok (results_in Sample.overnight None))
    by (vm_compute; reflexivity).
  pose proof (run_tracker_effects Sample.overnight _ _
                (surjective_pairing (run_tracker Sample.overnight))) as Heff.
  rewrite Hrun in Heff.
  destruct Heff as (_ & _ & _ & _ & _ & _ & Hweek & _ & Hget & _).
  exists (results_in Sample.overnight None).
  split; [exact Hrun|]. split; [exact Hweek | exact Hget].
Defined.

Lemma second_run_compares_with_first_sample :
  wow_delta (summary_of Sample.result) = None /\
  exists r2,
    fst (run_tracker (snd (run_tracker Sample.world))) = Ok r2 /\
    wow_delta (summary_of r2)
    = Some (overall_pct (summary_of r2) - overall_pct (summary_of Sample.result)).
Proof.
  assert (H1 : forall name doc,
             In (name, doc) (data_dir Sample.world) -> glob_week name = false)
    by (intros name doc []).
  assert (H2 : fst (run_tracker Sample.world) = Ok Sample.result)
    by (vm_compute; reflexivity).
  assert (H3 : replies_are_text (snd (run_tracker Sample.world)) = true)
    by (vm_compute; reflexivity).
  exact (second_run_compares_with_first Sample.world Sample.result
           (snd (run_tracker Sample.world)) H1 H2 eq_refl H3).
Defined.

Lemma snapshot_without_summary_sample :
  exists r,
    fst (run_tracker
           (Sample.with_dir [("week_2025-03-12.json", JDict [("note", JStr "x")])]))
    = Ok r /\
    wow_delta (summary_of r) = None.
Proof.
  apply (snapshot_without_summary
           (Sample.with_dir [("week_2025-03-12.json", JDict [("note", JStr "x")])])
           [("note", JStr "x")]); vm_compute; reflexivity.
Defined.

Lemma missing_overall_pct_counts_as_zero_sample :
  exists r,
    fst (run_tracker
           (Sample.with_dir
              [("week_2025-03-12.json",
                JDict [("summary", JDict [("total_hits", JInt 3)])])]))
    = Ok r /\
    wow_delta (summary_of r) = Some (overall_pct (summary_of r)).
Proof.
  apply (missing_overall_pct_counts_as_zero
           (Sample.with_dir
              [("week_2025-03-12.json",
                JDict [("summary", JDict [("total_hits", JInt 3)])])])
           [("summary", JDict [("total_hits", JInt 3)])]
           [("total_hits", JInt 3)]); vm_compute; reflexivity.
Defined.

Lemma malformed_snapshot_aborts_run_sample :
  fst (run_tracker (Sample.with_dir [("week_2025-03-12.json", JInt 7)]))
  = Raise TypeError.
Proof.
  destruct (malformed_snapshot_aborts_run
              (Sample.with_dir [("week_2025-03-12.json", JInt 7)]) (JInt 7))
    as (H & _).
  - vm_compute. reflexivity.
  - reflexivity.
  - rewrite H; [reflexivity|]. left. exists 7. split; [reflexivity | lia].
Defined.

Lemma failed_request_is_error_record_sample :
  exists recs rec,
    nth_error (platforms Sample.result) 0 = Some ("chatgpt", recs) /\
    nth_error recs 1 = Some rec /\
    r_error rec = true /\ r_mentioned rec = false.
Proof.
  destruct (failed_request_is_error_record Sample.world Sample.result 0 1
              "chatgpt" "https://api.openai.com/v1/chat/completions"
              "Public Safety"
              "How do I find a company to outfit my police fleet with technology?"
              "HTTPSConnectionPool: read timed out")
    as (recs & rec & H1 & H2 & _ & _ & H3 & H4 & _).
  - vm_compute. reflexivity.
  - reflexivity.
  - reflexivity.
  - reflexivity.
  - exists recs, rec. repeat split; assumption.
Defined.

Lemma answered_request_record_sample :
  exists recs rec,
    nth_error (platforms Sample.result) 0 = Some ("chatgpt", recs) /\
    nth_error recs 0 = Some rec /\
    r_error rec = false /\ r_mentioned rec = true.
Proof.
  destruct (answered_request_record Sample.world Sample.result 0 0
              "chatgpt" "https://api.openai.com/v1/chat/completions"
              "Public Safety"
              "Who are the best vehicle upfitters for police departments?"
              "FleetTEC is a well known upfitter.")
    as (recs & rec & H1 & H2 & H3 & H4 & _).
  - vm_compute. reflexivity.
  - reflexivity.
  - reflexivity.
  - reflexivity.
  - reflexivity.
  - exists recs, rec. repeat split; assumption.
Defined.

Lemma snippet_is_bounded_prefix_sample :
  (PyStr.len (r_response_snippet Sample.timeout_record) <= 300)%nat.
Proof.
  apply (snippet_is_bounded_prefix Sample.world Sample.result "chatgpt"
           Sample.chatgpt_records Sample.timeout_record).
  - vm_compute. reflexivity.
  - left. reflexivity.
  - right. left. reflexivity.
Defined.

Lemma per_platform_stats_sample :
  PyDict.keys (per_platform (summary_of Sample.result))
  = ["chatgpt"; "claude"; "gemini"].
Proof.
  apply (per_platform_stats Sample.world Sample.result).
  vm_compute. reflexivity.
Defined.

Lemma prompt_entry_platforms_sample :
  NoDup ["chatgpt"].
Proof.
  destruct (prompt_entry_platforms Sample.world Sample.result
              "Who are the best vehicle upfitters for police departments?"
              {| pi_category := "Public Safety"; pi_platforms := ["chatgpt"] |})
    as (_ & H & _).
  - vm_compute. reflexivity.
  - left. vm_compute. left. reflexivity.
  - exact H.
Defined.

Lemma prompt_counts_sample :
  (List.length (winning_prompts (summary_of Sample.result))
   + List.length (gap_prompts (summary_of Sample.result)) = 25)%nat.
Proof.
  assert (H : fst (run_tracker Sample.world) = Ok Sample.result)
    by (vm_compute; reflexivity).
  exact (proj1 (prompt_counts Sample.world Sample.result H)).
Defined.

Lemma mention_survives_context_sample :
  brand_mentioned ("We asked around; " ++ "FleetTEC" ++ " came up twice.") = true.
Proof.
  apply (mention_survives_context "We asked around; " "FleetTEC"
           " came up twice.").
  reflexivity.
Defined.

Lemma report_of_run_sample :
  exists lines,
    format_lines Sample.result = Ok lines /\
    format_slack_message Sample.result = Ok (PyStr.join nl lines) /\
    (21 <= List.length lines <= 29)%nat.
Proof.
  apply (report_of_run Sample.world Sample.result).
  vm_compute. reflexivity.
Defined.

Lemma unknown_platform_raises_sample :
  format_slack_message Sample.foreign_results = Raise (KeyError "bing").
Proof.
  apply (unknown_platform_raises Sample.foreign_results
           [("chatgpt", {| ps_hits := 1; ps_total := 1; ps_pct := 100 |})]
           "bing" {| ps_hits := 0; ps_total := 1; ps_pct := 0 |} []).
  - reflexivity.
  - intros n [<-|[]]. reflexivity.
  - reflexivity.
Defined.

Lemma main_persists_before_delivery_sample :
  exists r msg,
    fst (run_tracker Sample.later) = Ok r /\
    format_slack_message r = Ok msg /\
    exit_code (fst (main Sample.later)) <> 0.
Proof.
  destruct (main_persists_before_delivery Sample.later)
    as (r & msg & H1 & H2 & _ & _ & H3).
  - intros name doc [Hin|[Hin|[]]] G; injection Hin as <- <-.
    + exists Sample.result. reflexivity.
    + vm_compute in G. discriminate G.
  - vm_compute. reflexivity.
  - exists r, msg. split; [exact H1|]. split; [exact H2|].
    intros H. apply H3 in H. destruct H as (text & H). discriminate H.
Defined.

Lemma load_ignores_listing_order_sample :
  fst (load_previous_week Sample.later)
  = fst (load_previous_week Sample.later_reordered).
Proof.
  apply (load_ignores_listing_order Sample.later Sample.later_reordered).
  - apply nodupb_sound. reflexivity.
  - apply perm_swap.
Defined.

Lemma non_text_reply_stops_run_sample :
  fst (run_tracker Sample.null_reply) = Raise AttributeError /\
  data_dir (snd (run_tracker Sample.null_reply)) = [].
Proof.
  destruct (non_text_reply_stops_run Sample.null_reply 1 2 "claude"
              "https://api.anthropic.com/v1/messages" "Public Safety"
              "What companies install in-car computers and cameras for law enforcement?")
    as (_ & H & _ & Hd & _).
  - reflexivity.
  - reflexivity.
  - reflexivity.
  - split; [now rewrite H | exact Hd].
Defined.
